(** * gwfin_verify: the Excel-to-DAT converter of [app.py]

    A shallow embedding of the functions of [src/app.py]
    ([clean_cell_value], [get_bytes_md5], [read_task_info],
    [read_business_info], [process_business_data] and the processing part of
    [main]) together with the properties the specification states about them.

    Conventions of the embedding.
    - A Python [str] is the list of its Unicode code points ([pystr]).
    - A cell of a sheet read with [dtype=str] is either [NaN] or a string.
    - A sheet read with [pd.read_excel(..., header=1, dtype=str)] is a
      [DataFrame]: its column labels and its rows of cells.
    - The shared [logs] list and the clock are threaded through a small
      state-and-exception monad.
    - [hashlib.md5] is modelled by an implementation of MD5.
    - [json.loads] and Python's [repr] of nested containers are library
      code: the program is parameterised by them inside sections, and
      reference implementations ([JsonRef]) are given for evaluation. *)

From Stdlib Require Import List NArith ZArith Arith Lia Bool.
From Stdlib Require Import Strings.Ascii Strings.Byte.
From Stdlib Require Strings.String.
Import ListNotations.
Import String.StringSyntax.
Delimit Scope string_scope with string.
Bind Scope string_scope with String.string.

Set Implicit Arguments.

(* ================================================================== *)
(** * Python strings *)
(* ================================================================== *)

Module PyStr.

(** A Python [str]: its code points, in order. *)
Definition pystr := list N.

Definition pystr_eq_dec : forall a b : pystr, {a = b} + {a <> b} :=
list_eq_dec N.eq_dec.

(** [a == b] on strings. *)
Definition str_eqb (a b : pystr) : bool :=
if pystr_eq_dec a b then true else false.

(** [not s] on strings. *)
Definition is_empty (s : pystr) : bool :=
match s with [] => true | _ => false end.

(** [str.isspace] on one code point: the characters [str.strip()] removes. *)
Definition isspace (c : N) : bool :=
((9 <=? c) && (c <=? 13) || (28 <=? c) && (c <=? 32)
 || (c =? 0x85) || (c =? 0xA0) || (c =? 0x1680)
 || (0x2000 <=? c) && (c <=? 0x200A)
 || (c =? 0x2028) || (c =? 0x2029) || (c =? 0x202F)
 || (c =? 0x205F) || (c =? 0x3000))%N.

(** [s.lstrip()] *)
Fixpoint lstrip (s : pystr) : pystr :=
match s with
| [] => []
| c :: t => if isspace c then lstrip t else s
end.

(** [s.rstrip()] *)
Definition rstrip (s : pystr) : pystr := rev (lstrip (rev s)).

(** [s.strip()] *)
Definition strip (s : pystr) : pystr := rstrip (lstrip s).

(** [sep.join(parts)] *)
Fixpoint join (sep : pystr) (parts : list pystr) : pystr :=
match parts with
| [] => []
| [p] => p
| p :: rest => p ++ sep ++ join sep rest
end.

(** [s.split(sep)] for a one-character separator [sep]. *)
Fixpoint split (sep : N) (s : pystr) : list pystr :=
match s with
| [] => [[]]
| c :: t =>
    if (c =? sep)%N then [] :: split sep t
    else match split sep t with
         | [] => [[c]]
         | w :: ws => (c :: w) :: ws
         end
end.

(** [s.replace(chr(c), '')]: every occurrence of one character removed. *)
Definition remove_char (c : N) (s : pystr) : pystr :=
filter (fun x => negb (x =? c)%N) s.

(** The code points of an ASCII literal. *)
Fixpoint of_ascii (s : String.string) : list N :=
match s with
| String.EmptyString => []
| String.String a t => N_of_ascii a :: of_ascii t
end.

(** UTF-8 decoding of a well-formed byte sequence; it is used to write the
  program's non-ASCII literals as they appear in the source. *)
Fixpoint utf8_decode (l : list N) : pystr :=
match l with
| [] => []
| b0 :: t =>
    if (b0 <? 0x80)%N then b0 :: utf8_decode t
    else if (b0 <? 0xE0)%N then
      match t with
      | b1 :: t1 => ((b0 mod 32) * 64 + b1 mod 64)%N :: utf8_decode t1
      | _ => []
      end
    else if (b0 <? 0xF0)%N then
      match t with
      | b1 :: b2 :: t2 =>
          ((b0 mod 16) * 4096 + (b1 mod 64) * 64 + b2 mod 64)%N
            :: utf8_decode t2
      | _ => []
      end
    else
      match t with
      | b1 :: b2 :: b3 :: t3 =>
          ((b0 mod 8) * 262144 + (b1 mod 64) * 4096
           + (b2 mod 64) * 64 + b3 mod 64)%N :: utf8_decode t3
      | _ => []
      end
end.

(** A string literal of the source, as a Python string. *)
Definition u (s : String.string) : pystr := utf8_decode (of_ascii s).
Arguments u s%_string.

Definition digit_char (d : N) : N := (48 + d)%N.

Fixpoint uint_digits (d : Decimal.uint) : pystr :=
match d with
| Decimal.Nil => []
| Decimal.D0 r => digit_char 0 :: uint_digits r
| Decimal.D1 r => digit_char 1 :: uint_digits r
| Decimal.D2 r => digit_char 2 :: uint_digits r
| Decimal.D3 r => digit_char 3 :: uint_digits r
| Decimal.D4 r => digit_char 4 :: uint_digits r
| Decimal.D5 r => digit_char 5 :: uint_digits r
| Decimal.D6 r => digit_char 6 :: uint_digits r
| Decimal.D7 r => digit_char 7 :: uint_digits r
| Decimal.D8 r => digit_char 8 :: uint_digits r
| Decimal.D9 r => digit_char 9 :: uint_digits r
end.

(** [str(n)] for a non-negative integer. *)
Definition str_of_nat (n : nat) : pystr := uint_digits (Nat.to_uint n).

(** Bytes. *)
Definition bytes := list byte.

Definition byte_of_N (n : N) : byte :=
match Byte.of_N n with Some b => b | None => x00 end.

(** The UTF-8 encoding of one code point.  Text read from a workbook holds
  Unicode scalar values only, for which [str.encode] never fails. *)
Definition utf8_char (c : N) : list N :=
(if c <? 0x80 then [c]
 else if c <? 0x800 then [0xC0 + c / 64; 0x80 + c mod 64]
 else if c <? 0x10000 then
   [0xE0 + c / 4096; 0x80 + (c / 64) mod 64; 0x80 + c mod 64]
 else
   [0xF0 + (c / 262144) mod 8; 0x80 + (c / 4096) mod 64;
    0x80 + (c / 64) mod 64; 0x80 + c mod 64])%N.

(** [s.encode("utf-8")] *)
Definition encode_utf8 (s : pystr) : bytes :=
map byte_of_N (flat_map utf8_char s).

End PyStr.
Import PyStr.

(* ================================================================== *)
(** * CellNormalizer: [clean_cell_value] *)
(* ================================================================== *)

(** A cell value of a sheet read with [dtype=str]: missing ([NaN]) or text. *)
Inductive cell : Type :=
| NaN : cell
| Str : pystr -> cell.

(** [pd.isna(value)] *)
Definition isna (value : cell) : bool :=
  match value with NaN => true | Str _ => false end.

(** [str(value)] for a cell that is not missing. *)
Definition cell_str (value : cell) : pystr :=
  match value with NaN => u "nan" | Str s => s end.

(** [value == ''] *)
Definition is_empty_str (value : cell) : bool :=
  match value with Str [] => true | _ => false end.

(** [clean_cell_value], app.py lines 18-22.  (The docstring also announces
    six decimals for numbers; the body does no such formatting, and cells
    read with [dtype=str] are text anyway.) *)
Definition clean_cell_value (value : cell) : pystr :=
  if isna value || is_empty_str value then []
  else strip (cell_str value).

(* ================================================================== *)
(** * Exceptions, log events and the processing monad *)
(* ================================================================== *)

(** The messages of the [ValueError]s the program and pandas raise. *)
Inductive error_msg : Type :=
| MsgMissingSheets (names : list pystr)      (* 缺少必需的sheet: ... *)
| MsgTaskSheetEmpty                          (* 「任务说明」sheet无有效数据 *)
| MsgTaskMissingCols (cols : list pystr)     (* 「任务说明」sheet缺少必要列：... *)
| MsgDataDateEmpty                           (* 数据日期为空或格式错误 *)
| MsgBusinessMissingCols (cols : list pystr) (* 「业务说明」sheet缺少必要列：... *)
| MsgWorksheetNotFound (name : pystr).       (* pandas: Worksheet named ... not found *)

(** The Python exceptions that occur in the modelled code. *)
Inductive exn : Type :=
| ValueError (msg : error_msg)
| AttributeError   (* [.keys()] on a value that is not a dict *)
| IndexError
| KeyError.

Inductive result (A : Type) : Type :=
| Ok (a : A)
| Raise (e : exn).
Arguments Ok {A} a.
Arguments Raise {A} e.

(** The entries appended to [logs], one constructor per message of the
    source; the arguments are the values interpolated into the f-string. *)
Inductive event : Type :=
| EvSheets (names : list pystr)            (* 成功读取Excel文件，包含以下sheet: ... *)
| EvCreditCode (code : pystr)              (* 社会统一信用代码：... *)
| EvDataDate (date : pystr)                (* 数据日期：... *)
| EvBusinessCount (n : nat)                (* 共获取n个业务表单配置 *)
| EvCheckGrouped (n : nat)                 (* 「校验结果」sheet共n行数据，已按表单名称分组 *)
| EvWarnNoFormColumn                       (* 警告：「校验结果」sheet缺少「表单名称」列 *)
| EvFormHeader (name en_name : pystr)      (* --- 处理业务表单：...（英文名称：...）--- *)
| EvWarnNoCheckData                        (* 警告：无匹配的校验结果数据，生成空dat文件 *)
| EvFoundRows (n : nat)                    (* 找到n行匹配的校验结果数据 *)
| EvWarnNoJson                             (* 警告：J列无JSON数据，跳过该行 *)
| EvWarnEmptyJson                          (* 警告：JSON为空对象，跳过该行 *)
| EvWarnNotArray                           (* 警告：JSON value不是非空数组，跳过该行 *)
| EvWarnJsonDecode                         (* 警告：JSON解析失败，跳过该行 *)
| EvWarnSampleEmpty                        (* 警告：示例数据sheet无有效数据 *)
| EvWarnSampleNoColumnC                    (* 警告：示例数据sheet缺少C列 *)
| EvWarnNoMatch (target : pystr)           (* 警告：示例数据sheet中未找到C列='...'的行 *)
| EvWarnReadFailed (e : exn)               (* 警告：读取示例数据失败 - ... *)
| EvFormDone (n : nat)                     (* 业务表单处理完成，共生成n行数据 *)
| EvZipDone (name : pystr)                 (* 已生成ZIP文件：... *)
| EvAllDone (n : nat)                      (* ✅ 所有文件处理完成！共生成n个ZIP包 *)
| EvError (e : exn).                       (* ❌ 处理过程中发生错误: ... *)

(** The entries whose text starts with 警告 (warning). *)
Definition is_warning (e : event) : bool :=
  match e with
  | EvWarnNoFormColumn | EvWarnNoCheckData | EvWarnNoJson | EvWarnEmptyJson
  | EvWarnNotArray | EvWarnJsonDecode | EvWarnSampleEmpty
  | EvWarnSampleNoColumnC | EvWarnNoMatch _ | EvWarnReadFailed _ => true
  | _ => false
  end.

(** The mutable state of a run: the [logs] list and the number of times the
    clock has been read. *)
Record state : Type := mkState { logs : list event; ticks : nat }.

(** Computations that read and extend the state and may raise.  The state
    survives an exception, as the [logs] list does in the source. *)
Definition M (A : Type) : Type := state -> result A * state.

Definition ret {A} (a : A) : M A := fun s => (Ok a, s).

Definition bind {A B} (m : M A) (k : A -> M B) : M B :=
  fun s => match m s with
           | (Ok a, s') => k a s'
           | (Raise e, s') => (Raise e, s')
           end.

Definition raise {A} (e : exn) : M A := fun s => (Raise e, s).

Definition lift {A} (r : result A) : M A := fun s => (r, s).

(** [logs.append(e)] *)
Definition log (e : event) : M unit :=
  fun s => (Ok tt, mkState (logs s ++ [e]) (ticks s)).

Declare Scope monad_scope.
Delimit Scope monad_scope with M.
Notation "x <- m ;; k" := (bind m (fun x => k))
  (at level 61, m at next level, right associativity) : monad_scope.
Notation "m ;; k" := (bind m (fun _ => k))
  (at level 61, right associativity) : monad_scope.
Notation "' pat <- m ;; k" := (bind m (fun x => match x with pat => k end))
  (at level 61, pat pattern, m at next level, right associativity)
  : monad_scope.
Open Scope monad_scope.

(* ================================================================== *)
(** * Data frames and the workbook *)
(* ================================================================== *)

Definition cell_eq_dec : forall a b : cell, {a = b} + {a <> b}.
Proof. decide equality. apply pystr_eq_dec. Defined.

Definition cell_eqb (a b : cell) : bool :=
  if cell_eq_dec a b then true else false.

(** [x in l] for strings. *)
Definition str_mem (x : pystr) (l : list pystr) : bool :=
  existsb (str_eqb x) l.

(** The result of [pd.read_excel(excel_file, sheet_name=..., header=1,
    dtype=str)]: the column labels and the data rows. *)
Record DataFrame : Type := mkDF {
  columns : list pystr;
  rows : list (list cell)
}.

(** Every row of a frame that pandas builds has one cell per column, and
    [read_excel] makes the labels distinct.  The functions below are total
    on all frames (a cell that a row lacks reads as [NaN], a repeated label
    stands for its first column), and the theorems do not assume
    well-formedness. *)
Definition df_wf (df : DataFrame) : Prop :=
  NoDup (columns df) /\
  Forall (fun r => length r = length (columns df)) (rows df).

(** [df.empty]: one of the axes has length 0. *)
Definition df_empty (df : DataFrame) : bool :=
  match columns df, rows df with
  | [], _ => true
  | _, [] => true
  | _, _ => false
  end.

(** The position of a label among the columns. *)
Fixpoint index_of (name : pystr) (cols : list pystr) : option nat :=
  match cols with
  | [] => None
  | c :: t => if str_eqb c name then Some 0
              else option_map S (index_of name t)
  end.

(** [row[name]] for a row of a frame with columns [cols]. *)
Definition row_get (cols : list pystr) (row : list cell) (name : pystr) : cell :=
  match index_of name cols with
  | Some i => nth i row NaN
  | None => NaN
  end.

(** An opened workbook ([pd.ExcelFile]): its sheets in order, each with the
    frame [read_excel] yields for it. *)
Record ExcelFile : Type := mkExcel { sheets : list (pystr * DataFrame) }.

Definition sheet_names (excel_file : ExcelFile) : list pystr :=
  map fst (sheets excel_file).

(** [pd.read_excel(excel_file, sheet_name=name, header=1, dtype=str)]; a
    sheet that does not exist raises [ValueError]. *)
Definition read_excel (excel_file : ExcelFile) (name : pystr) : result DataFrame :=
  match find (fun p => str_eqb (fst p) name) (sheets excel_file) with
  | Some (_, df) => Ok df
  | None => Raise (ValueError (MsgWorksheetNotFound name))
  end.

(** [DataFrame.drop_duplicates()] on the rows of a frame (keep="first"): a
    row is dropped when an equal row occurs before it. *)
Section DropDuplicates.
Context {A : Type} (eq_dec : forall a b : A, {a = b} + {a <> b}).

Definition mem (x : A) (l : list A) : bool :=
  if in_dec eq_dec x l then true else false.

Fixpoint drop_duplicates_from (seen l : list A) : list A :=
  match l with
  | [] => []
  | x :: t =>
      if mem x seen then drop_duplicates_from seen t
      else x :: drop_duplicates_from (x :: seen) t
  end.

Definition drop_duplicates (l : list A) : list A :=
  drop_duplicates_from [] l.
End DropDuplicates.

(* ================================================================== *)
(** * TaskIdentityReader: [read_task_info] *)
(* ================================================================== *)

Definition COL_CREDIT_CODE : pystr := Eval vm_compute in u "社会统一信用代码".
Definition COL_DATA_DATE : pystr := Eval vm_compute in u "数据日期".
Definition COL_FORM_NAME : pystr := Eval vm_compute in u "业务表单名称".
Definition COL_FORM_EN_NAME : pystr := Eval vm_compute in u "业务表单英文名称".
Definition COL_CHECK_FORM : pystr := Eval vm_compute in u "表单名称".
Definition COL_TEMP_CLEAN : pystr := Eval vm_compute in u "C列_清洗后".
Definition SHEET_TASK : pystr := Eval vm_compute in u "任务说明".
Definition SHEET_BUSINESS : pystr := Eval vm_compute in u "业务说明".
Definition SHEET_CHECK : pystr := Eval vm_compute in u "校验结果".
Definition SAMPLE_PREFIX : pystr := Eval vm_compute in u "示例数据_".
Definition DEFAULT_FORM_NAME : pystr := Eval vm_compute in u "默认表单".
Definition DEFAULT_FORM_EN_NAME : pystr := Eval vm_compute in u "Default".
Definition DASH : N := 45%N.
Definition NEWLINE : N := 10%N.

(** [[col for col in required_cols if col not in df.columns]] *)
Definition missing_columns (required_cols : list pystr) (df : DataFrame) : list pystr :=
  filter (fun col => negb (str_mem col (columns df))) required_cols.

(** [read_task_info], app.py lines 42-60. *)
Definition read_task_info (df_task : DataFrame) : result (pystr * pystr) :=
  if df_empty df_task then Raise (ValueError MsgTaskSheetEmpty)
  else
    let required_cols := [COL_CREDIT_CODE; COL_DATA_DATE] in
    let missing_cols := missing_columns required_cols df_task in
    match missing_cols with
    | _ :: _ => Raise (ValueError (MsgTaskMissingCols missing_cols))
    | [] =>
        let first_row := hd [] (rows df_task) in
        let credit_code :=
          clean_cell_value (row_get (columns df_task) first_row COL_CREDIT_CODE) in
        let data_date_raw :=
          clean_cell_value (row_get (columns df_task) first_row COL_DATA_DATE) in
        let data_date := strip (remove_char DASH data_date_raw) in
        if is_empty data_date then Raise (ValueError MsgDataDateEmpty)
        else Ok (credit_code, data_date)
    end.

(* ================================================================== *)
(** * BusinessCatalogReader: [read_business_info] *)
(* ================================================================== *)

(** One record of [df[required_cols].to_dict("records")]: the cells under
    业务表单名称 and 业务表单英文名称. *)
Record business : Type := mkBusiness {
  form_name : cell;
  form_en_name : cell
}.

Definition business_eq_dec : forall a b : business, {a = b} + {a <> b}.
Proof. decide equality; apply cell_eq_dec. Defined.

(** [df[["业务表单名称", "业务表单英文名称"]]], row by row. *)
Definition select_business (df : DataFrame) : list business :=
  map (fun r => mkBusiness (row_get (columns df) r COL_FORM_NAME)
                           (row_get (columns df) r COL_FORM_EN_NAME))
      (rows df).

(** [read_business_info], app.py lines 62-74.  ([st.warning] on an empty
    sheet writes to the page, not to [logs].) *)
Definition read_business_info (df_business : DataFrame) : result (list business) :=
  if df_empty df_business then Ok []
  else
    let required_cols := [COL_FORM_NAME; COL_FORM_EN_NAME] in
    let missing_cols := missing_columns required_cols df_business in
    match missing_cols with
    | _ :: _ => Raise (ValueError (MsgBusinessMissingCols missing_cols))
    | [] => Ok (drop_duplicates business_eq_dec (select_business df_business))
    end.

(* ================================================================== *)
(** * Decoded JSON values *)
(* ================================================================== *)

(** The Python values [json.loads] returns.  A float is kept as the two
    observations the program can make of it: whether it is zero (its truth
    value) and its [str].  A dict lists its items in insertion order, with
    distinct keys. *)
Unset Elimination Schemes.
Inductive pyval : Type :=
| PNone
| PBool (b : bool)
| PInt (z : Z)
| PFloat (is_zero : bool) (text : pystr)
| PStr (s : pystr)
| PList (items : list pyval)
| PDict (items : list (pystr * pyval)).
Set Elimination Schemes.

(** [bool(v)] *)
Definition truthy (v : pyval) : bool :=
  match v with
  | PNone => false
  | PBool b => b
  | PInt z => negb (z =? 0)%Z
  | PFloat is_zero _ => negb is_zero
  | PStr s => negb (is_empty s)
  | PList items => match items with [] => false | _ => true end
  | PDict items => match items with [] => false | _ => true end
  end.

(** [str(z)] for an integer. *)
Definition str_of_Z (z : Z) : pystr :=
  match z with
  | Z0 => u "0"
  | Zpos p => uint_digits (Pos.to_uint p)
  | Zneg p => DASH :: uint_digits (Pos.to_uint p)
  end.

(** [list(d.keys())] *)
Definition dict_keys (d : list (pystr * pyval)) : list pystr := map fst d.

(** [d[key]] *)
Definition dict_get (d : list (pystr * pyval)) (key : pystr) : option pyval :=
  option_map snd (find (fun kv => str_eqb (fst kv) key) d).

(* ================================================================== *)
(** * CheckResultIndex *)
(* ================================================================== *)

(** [df_check.groupby("表单名称", dropna=False)]: the grouped frame and the
    label it is grouped by. *)
Record GroupBy : Type := mkGroupBy {
  grouped_frame : DataFrame;
  group_label : pystr
}.

Definition group_key (g : GroupBy) (row : list cell) : cell :=
  row_get (columns (grouped_frame g)) row (group_label g).

(** [name in check_group.groups] *)
Definition in_groups (name : pystr) (g : GroupBy) : bool :=
  existsb (fun r => cell_eqb (group_key g r) (Str name)) (rows (grouped_frame g)).

(** [check_group.get_group(name)]: the rows of the group, in sheet order. *)
Definition get_group (g : GroupBy) (name : pystr) : list (list cell) :=
  filter (fun r => cell_eqb (group_key g r) (Str name)) (rows (grouped_frame g)).

(* ================================================================== *)
(** * RecordBuilder: [process_business_data] *)
(* ================================================================== *)

(** What one iteration of the loop over the check rows does to
    [dat_strings]: [continue], or [dat_strings.append(full_str)]. *)
Inductive flow : Type :=
| Continue
| Append (full_str : pystr).

(** [check_row.iloc[k] if len(check_row) > k else ''] *)
Definition field (check_row : list cell) (k : nat) : cell :=
  if k <? length check_row then nth k check_row NaN else Str [].

(** [row.drop(columns=[name])] on one row of a frame with columns [cols]. *)
Fixpoint remove_nth {A} (k : nat) (l : list A) : list A :=
  match l, k with
  | [], _ => []
  | _ :: t, O => t
  | x :: t, S k' => x :: remove_nth k' t
  end.

(** The row of [matched_rows.drop(columns=["C列_清洗后"])] that comes from
    [row]: the assignment [df_sample["C列_清洗后"] = ...] appends the
    column, or overwrites a column the sheet already has under that label;
    the drop removes it again. *)
Definition drop_temp_column (cols : list pystr) (row : list cell) : list cell :=
  match index_of COL_TEMP_CLEAN cols with
  | Some k => remove_nth k row
  | None => row
  end.

Section RecordBuilder.

(** [json.loads]: [None] stands for [json.JSONDecodeError]. *)
Variable json_loads : pystr -> option pyval.

(** [str] of a decoded list or dict (Python's [repr] of a container). *)
Variable py_repr : pyval -> pystr.

(** [str(v)] *)
Definition py_str (v : pyval) : pystr :=
  match v with
  | PNone => u "None"
  | PBool true => u "True"
  | PBool false => u "False"
  | PInt z => str_of_Z z
  | PFloat _ text => text
  | PStr s => s
  | PList _ | PDict _ => py_repr v
  end.

Variable excel_file : ExcelFile.

(** The body of the loop of app.py lines 93-156, for one check row. *)
Definition process_check_row (business_name : pystr) (check_row : list cell) : M flow :=
  let c_val := clean_cell_value (field check_row 2) in
  let i_val := clean_cell_value (field check_row 8) in
  let g_val := clean_cell_value (field check_row 6) in
  let part1 := u "01|" ++ c_val ++ u "|" ++ i_val ++ u "|" ++ g_val ++ u "|" in
  let j_val := clean_cell_value (field check_row 9) in
  if is_empty j_val then
    log EvWarnNoJson ;; ret Continue
  else
    match json_loads j_val with
    | None => log EvWarnJsonDecode ;; ret Continue
    | Some json_obj =>
        if negb (truthy json_obj) then
          log EvWarnEmptyJson ;; ret Continue
        else
          match json_obj with
          | PDict d =>
              match dict_keys d with
              | [] => raise IndexError
              | json_key :: _ =>
                  match dict_get d json_key with
                  | None => raise KeyError
                  | Some (PList (first :: _)) =>
                      let target_row_num := strip (py_str first) in
                      let sample_sheet_name := SAMPLE_PREFIX ++ business_name in
                      let part2 : pystr := [] in
                      match read_excel excel_file sample_sheet_name with
                      | Raise e =>
                          log (EvWarnReadFailed e) ;;
                          ret (Append (part1 ++ part2))
                      | Ok df_sample =>
                          if df_empty df_sample then
                            log EvWarnSampleEmpty ;; ret Continue
                          else if length (columns df_sample) <? 3 then
                            log EvWarnSampleNoColumnC ;; ret Continue
                          else
                            let matched_rows :=
                              filter (fun r => str_eqb (clean_cell_value (nth 2 r NaN))
                                                       target_row_num)
                                     (rows df_sample) in
                            match matched_rows with
                            | [] =>
                                log (EvWarnNoMatch target_row_num) ;; ret Continue
                            | matched_row :: _ =>
                                let target_row :=
                                  drop_temp_column (columns df_sample) matched_row in
                                let d_after_data :=
                                  if 3 <? length target_row then skipn 3 target_row
                                  else [] in
                                let part2 :=
                                  join (u "@&@") (map clean_cell_value d_after_data) in
                                ret (Append (part1 ++ part2))
                            end
                      end
                  | Some _ => log EvWarnNotArray ;; ret Continue
                  end
              end
          | _ => raise AttributeError
          end
    end.

(** [for _, check_row in check_rows.iterrows(): ...] *)
Fixpoint process_check_rows (business_name : pystr) (check_rows : list (list cell))
    (dat_strings : list pystr) : M (list pystr) :=
  match check_rows with
  | [] => ret dat_strings
  | check_row :: rest =>
      f <- process_check_row business_name check_row ;;
      process_check_rows business_name rest
        (match f with
         | Continue => dat_strings
         | Append full_str => dat_strings ++ [full_str]
         end)
  end.

(** [process_business_data], app.py lines 76-159. *)
Definition process_business_data (b : business) (check_group : option GroupBy)
    : M (list pystr * pystr) :=
  let business_name := clean_cell_value (form_name b) in
  let business_en_name := clean_cell_value (form_en_name b) in
  log (EvFormHeader business_name business_en_name) ;;
  let dat_strings : list pystr := [] in
  if match check_group with
     | None => true
     | Some g => negb (in_groups business_name g)
     end
  then
    log EvWarnNoCheckData ;;
    ret (dat_strings, business_en_name)
  else
    let check_rows :=
      match check_group with
      | Some g => get_group g business_name
      | None => []
      end in
    log (EvFoundRows (length check_rows)) ;;
    dat_strings <- process_check_rows business_name check_rows dat_strings ;;
    log (EvFormDone (length dat_strings)) ;;
    ret (dat_strings, business_en_name).

End RecordBuilder.

(* ================================================================== *)
(** * The digest: [hashlib.md5] *)
(* ================================================================== *)

Module MD5.

Definition mask32 (x : N) : N := N.land x 0xFFFFFFFF.
Definition add32 (x y : N) : N := mask32 (x + y).
Definition not32 (x : N) : N := N.lxor (mask32 x) 0xFFFFFFFF.
Definition rotl32 (x c : N) : N :=
  mask32 (N.lor (N.shiftl x c) (N.shiftr x (32 - c))).

Definition K : list N :=
  [0xd76aa478; 0xe8c7b756; 0x242070db; 0xc1bdceee;
   0xf57c0faf; 0x4787c62a; 0xa8304613; 0xfd469501;
   0x698098d8; 0x8b44f7af; 0xffff5bb1; 0x895cd7be;
   0x6b901122; 0xfd987193; 0xa679438e; 0x49b40821;
   0xf61e2562; 0xc040b340; 0x265e5a51; 0xe9b6c7aa;
   0xd62f105d; 0x02441453; 0xd8a1e681; 0xe7d3fbc8;
   0x21e1cde6; 0xc33707d6; 0xf4d50d87; 0x455a14ed;
   0xa9e3e905; 0xfcefa3f8; 0x676f02d9; 0x8d2a4c8a;
   0xfffa3942; 0x8771f681; 0x6d9d6122; 0xfde5380c;
   0xa4beea44; 0x4bdecfa9; 0xf6bb4b60; 0xbebfbc70;
   0x289b7ec6; 0xeaa127fa; 0xd4ef3085; 0x04881d05;
   0xd9d4d039; 0xe6db99e5; 0x1fa27cf8; 0xc4ac5665;
   0xf4292244; 0x432aff97; 0xab9423a7; 0xfc93a039;
   0x655b59c3; 0x8f0ccc92; 0xffeff47d; 0x85845dd1;
   0x6fa87e4f; 0xfe2ce6e0; 0xa3014314; 0x4e0811a1;
   0xf7537e82; 0xbd3af235; 0x2ad7d2bb; 0xeb86d391]%N.

Definition shifts : list N :=
  [7; 12; 17; 22; 7; 12; 17; 22; 7; 12; 17; 22; 7; 12; 17; 22;
   5; 9; 14; 20; 5; 9; 14; 20; 5; 9; 14; 20; 5; 9; 14; 20;
   4; 11; 16; 23; 4; 11; 16; 23; 4; 11; 16; 23; 4; 11; 16; 23;
   6; 10; 15; 21; 6; 10; 15; 21; 6; 10; 15; 21; 6; 10; 15; 21]%N.

(** A little-endian word, and the [n] little-endian bytes of a number. *)
Definition word_le (bs : list N) : N :=
  fold_right (fun b acc => b + 256 * acc)%N 0%N bs.

Fixpoint bytes_le (n : nat) (x : N) : list N :=
  match n with
  | O => []
  | S n' => (x mod 256)%N :: bytes_le n' (x / 256)%N
  end.

Fixpoint words (n : nat) (bs : list N) : list N :=
  match n with
  | O => []
  | S n' => word_le (firstn 4 bs) :: words n' (skipn 4 bs)
  end.

Fixpoint chunks (n : nat) (bs : list N) : list (list N) :=
  match n with
  | O => []
  | S n' => firstn 64 bs :: chunks n' (skipn 64 bs)
  end.

Definition pad (msg : list N) : list N :=
  let len := length msg in
  msg ++ [0x80%N] ++ repeat 0%N ((119 - len mod 64) mod 64)
      ++ bytes_le 8 (8 * N.of_nat len).

Definition regs : Type := (N * N * N * N)%type.

Definition step (m : list N) (r : regs) (i : nat) : regs :=
  let '(a, b, c, d) := r in
  let '(f, g) :=
    if i <? 16 then (N.lor (N.land b c) (N.land (not32 b) d), i)
    else if i <? 32 then
      (N.lor (N.land d b) (N.land (not32 d) c), (5 * i + 1) mod 16)
    else if i <? 48 then (N.lxor b (N.lxor c d), (3 * i + 5) mod 16)
    else (N.lxor c (N.lor b (not32 d)), (7 * i) mod 16) in
  let f' := add32 (add32 (add32 f a) (nth i K 0%N)) (nth g m 0%N) in
  (d, add32 b (rotl32 f' (nth i shifts 0%N)), b, c).

Definition process_chunk (h : regs) (chunk : list N) : regs :=
  let '(a0, b0, c0, d0) := h in
  let '(a, b, c, d) := fold_left (step (words 16 chunk)) (seq 0 64) h in
  (add32 a0 a, add32 b0 b, add32 c0 c, add32 d0 d).

Definition init : regs :=
  (0x67452301, 0xefcdab89, 0x98badcfe, 0x10325476)%N.

(** [hashlib.md5(data).digest()] *)
Definition digest (data : bytes) : bytes :=
  let padded := pad (map Byte.to_N data) in
  let '(a, b, c, d) :=
    fold_left process_chunk (chunks (length padded / 64) padded) init in
  map byte_of_N (bytes_le 4 a ++ bytes_le 4 b ++ bytes_le 4 c ++ bytes_le 4 d).

Definition hex_digit (n : N) : N :=
  (if n <? 10 then 48 + n else 87 + n)%N.

Definition hex_byte (b : byte) : pystr :=
  [hex_digit (Byte.to_N b / 16); hex_digit (Byte.to_N b mod 16)]%N.

(** [hashlib.md5(data).hexdigest()] *)
Definition hexdigest (data : bytes) : pystr :=
  flat_map hex_byte (digest data).

End MD5.

(** [get_bytes_md5], app.py lines 34-40. *)
Definition get_bytes_md5 (bytes_data : bytes) : pystr :=
  match bytes_data with
  | [] => []
  | _ => MD5.hexdigest bytes_data
  end.

(** The regular files of a disk: the bytes stored under a path, [None] for a
    path that does not exist. *)
Definition file_system : Type := pystr -> option bytes.

(** [md5_hash.update(chunk)]: a hash object digests the concatenation of
    the chunks it was fed, so the object is modelled by these bytes. *)
Definition md5_update (md5_hash chunk : bytes) : bytes := md5_hash ++ chunk.

(** [for chunk in iter(lambda: f.read(n), b''): md5_hash.update(chunk)] on
    the bytes of the file not read yet: [f.read(n)] returns the next [n]
    bytes (fewer at the end of the file), and the loop stops at the first
    empty chunk.  [fuel] bounds the number of reads. *)
Fixpoint read_chunks (fuel n : nat) (unread md5_hash : bytes) : bytes :=
  match fuel with
  | O => md5_hash
  | S fuel' =>
      match firstn n unread with
      | [] => md5_hash
      | chunk => read_chunks fuel' n (skipn n unread) (md5_update md5_hash chunk)
      end
  end.

Definition CHUNK_SIZE : nat := 4096.

(** [get_file_md5], app.py lines 24-32.  Every read of the loop takes at
    least one byte, so one more read than the file has bytes is enough. *)
Definition get_file_md5 (fs : file_system) (file_path : pystr) : pystr :=
  match fs file_path with
  | None => []
  | Some content =>
      if length content =? 0 then []
      else
        let md5_hash : bytes := [] in
        MD5.hexdigest
          (read_chunks (S (length content)) CHUNK_SIZE content md5_hash)
  end.


(* ================================================================== *)
(** * ArtifactPackager and the processing part of [main] *)
(* ================================================================== *)

(** A ZIP archive, as the entries written to it with [writestr], in order. *)
Definition zip_archive : Type := list (pystr * bytes).

(** [len([s for s in dat_strings if s.strip()])] *)
Definition count_nonblank (dat_strings : list pystr) : nat :=
  length (filter (fun s => negb (is_empty (strip s))) dat_strings).

(** [{"业务表单名称": "默认表单", "业务表单英文名称": "Default"}] *)
Definition default_business : business :=
  mkBusiness (Str DEFAULT_FORM_NAME) (Str DEFAULT_FORM_EN_NAME).

(** [if not business_list: business_list = [{...default...}]], app.py
    lines 205-206. *)
Definition substitute_default (business_list : list business) : list business :=
  match business_list with
  | [] => [default_business]
  | _ => business_list
  end.

Section Main.

Variable json_loads : pystr -> option pyval.
Variable py_repr : pyval -> pystr.

(** The clock: the text [datetime.datetime.now().strftime("%Y-%m-%d
    %H:%M:%S")] yields at the k-th reading of a run. *)
Variable clock : nat -> pystr.

Variable excel_file : ExcelFile.

Definition now : M pystr :=
  fun s => (Ok (clock (ticks s)), mkState (logs s) (S (ticks s))).

(** The body of the loop over [business_list], app.py lines 222-258: the
    name and the content of the form's ZIP file. *)
Definition process_form (credit_code data_date : pystr)
    (check_group : option GroupBy) (b : business) : M (pystr * zip_archive) :=
  ' (dat_strings, business_en_name) <-
      process_business_data json_loads py_repr excel_file b check_group ;;
  let dat_content := join [NEWLINE] dat_strings in
  let dat_bytes := encode_utf8 dat_content in
  let base_filename :=
    credit_code ++ u "_" ++ business_en_name ++ u "_CHK_" ++ data_date in
  let dat_filename := base_filename ++ u ".dat" in
  let md5_value := get_bytes_md5 dat_bytes in
  let file_size := length dat_bytes in
  let line_count := count_nonblank dat_strings in
  create_time <- now ;;
  let log_content :=
    join [NEWLINE]
         [dat_filename; md5_value; str_of_nat file_size; create_time;
          str_of_nat line_count] in
  let log_bytes := encode_utf8 log_content in
  let zip_file : zip_archive :=
    [(dat_filename, dat_bytes); (base_filename ++ u ".log", log_bytes)] in
  log (EvZipDone (base_filename ++ u ".zip")) ;;
  ret (base_filename ++ u ".zip", zip_file).

(** [for business in business_list: ... all_zip_bytes.append(...)] *)
Fixpoint process_forms (credit_code data_date : pystr)
    (check_group : option GroupBy) (business_list : list business)
    (all_zip_bytes : list (pystr * zip_archive))
    : M (list (pystr * zip_archive)) :=
  match business_list with
  | [] => ret all_zip_bytes
  | b :: rest =>
      z <- process_form credit_code data_date check_group b ;;
      process_forms credit_code data_date check_group rest
                    (all_zip_bytes ++ [z])
  end.

(** The CheckResultIndex of app.py lines 209-218. *)
Definition read_check_group (names : list pystr) : M (option GroupBy) :=
  let has_check_sheet := str_mem SHEET_CHECK names in
  if has_check_sheet then
    df_check <- lift (read_excel excel_file SHEET_CHECK) ;;
    if str_mem COL_CHECK_FORM (columns df_check) then
      let check_group :=
        if negb (df_empty df_check)
        then Some (mkGroupBy df_check COL_CHECK_FORM) else None in
      log (EvCheckGrouped (length (rows df_check))) ;;
      ret check_group
    else
      log EvWarnNoFormColumn ;; ret None
  else ret None.

(** The [try] block of [main], app.py lines 185-267, from the opened
    workbook to the list of per-form archives (the entries of the
    aggregate archive, in order). *)
Definition main_try : M (list (pystr * zip_archive)) :=
  let names := sheet_names excel_file in
  log (EvSheets names) ;;
  let required_sheets := [SHEET_TASK; SHEET_BUSINESS] in
  let missing_required_sheets :=
    filter (fun s => negb (str_mem s names)) required_sheets in
  match missing_required_sheets with
  | _ :: _ => raise (ValueError (MsgMissingSheets missing_required_sheets))
  | [] =>
      df_task <- lift (read_excel excel_file SHEET_TASK) ;;
      ' (credit_code, data_date) <- lift (read_task_info df_task) ;;
      log (EvCreditCode credit_code) ;;
      log (EvDataDate data_date) ;;
      df_business <- lift (read_excel excel_file SHEET_BUSINESS) ;;
      business_list <- lift (read_business_info df_business) ;;
      let business_list := substitute_default business_list in
      log (EvBusinessCount (length business_list)) ;;
      check_group <- read_check_group names ;;
      all_zip_bytes <-
        process_forms credit_code data_date check_group business_list [] ;;
      log (EvAllDone (length all_zip_bytes)) ;;
      ret all_zip_bytes
  end.

(** What a run leaves: the processing log and, unless the job was
    aborted, the per-form archives offered for download. *)
Record outcome : Type := mkOutcome {
  out_logs : list event;
  out_archives : option (list (pystr * zip_archive))
}.

(** [main] from the opened workbook on: the [try] block and its
    [except Exception] handler. *)
Definition main : outcome :=
  match main_try (mkState [] 0) with
  | (Ok all_zip_bytes, s) => mkOutcome (logs s) (Some all_zip_bytes)
  | (Raise e, s) => mkOutcome (logs s ++ [EvError e]) None
  end.

End Main.

(* ================================================================== *)
(** * Reference implementations of the library functions *)
(* ================================================================== *)

(** A decoder for JSON text, after Python's [json.loads]: the grammar of
    [json.decoder] and [json.scanner], objects decoded to dicts in which a
    repeated key keeps its first position and its last value.  A number
    with a fraction or an exponent is decoded to a float whose text is the
    literal itself, which is Python's text of the float only when the
    literal is already in shortest form (as 1.5 is). *)
Module JsonRef.

Definition is_json_ws (c : N) : bool :=
  ((c =? 32) || (c =? 9) || (c =? 10) || (c =? 13))%N.

Fixpoint skip_ws (s : pystr) : pystr :=
  match s with
  | c :: t => if is_json_ws c then skip_ws t else s
  | [] => []
  end.

Definition is_digit (c : N) : bool := ((48 <=? c) && (c <=? 57))%N.

Fixpoint take_digits (s : pystr) : pystr * pystr :=
  match s with
  | c :: t => if is_digit c
              then let '(ds, r) := take_digits t in (c :: ds, r)
              else ([], s)
  | [] => ([], [])
  end.

Definition digits_value (ds : pystr) : Z :=
  fold_left (fun acc c => (10 * acc + Z.of_N (c - 48))%Z) ds 0%Z.

Definition hex_val (c : N) : option N :=
  (if (48 <=? c) && (c <=? 57) then Some (c - 48)
   else if (97 <=? c) && (c <=? 102) then Some (c - 87)
   else if (65 <=? c) && (c <=? 70) then Some (c - 55)
   else None)%N.

Definition hex4 (a b c d : N) : option N :=
  match hex_val a, hex_val b, hex_val c, hex_val d with
  | Some x, Some y, Some z, Some w => Some (x * 4096 + y * 256 + z * 16 + w)%N
  | _, _, _, _ => None
  end.

Definition simple_escape (c : N) : option N :=
  (if c =? 34 then Some 34 else if c =? 92 then Some 92
   else if c =? 47 then Some 47 else if c =? 98 then Some 8
   else if c =? 102 then Some 12 else if c =? 110 then Some 10
   else if c =? 114 then Some 13 else if c =? 116 then Some 9
   else None)%N.

(** The rest of a string after its opening quote. *)
Fixpoint parse_string (s : pystr) (acc : pystr) : option (pystr * pystr) :=
  match s with
  | [] => None
  | c :: t =>
      if (c =? 34)%N then Some (rev acc, t)
      else if (c =? 92)%N then
        match t with
        | 117%N :: h1 :: h2 :: h3 :: h4 :: t' =>
            match hex4 h1 h2 h3 h4 with
            | None => None
            | Some hi =>
                match t' with
                | 92%N :: 117%N :: l1 :: l2 :: l3 :: l4 :: t'' =>
                    match hex4 l1 l2 l3 l4 with
                    | Some lo =>
                        if ((0xD800 <=? hi) && (hi <=? 0xDBFF)
                            && (0xDC00 <=? lo) && (lo <=? 0xDFFF))%N
                        then parse_string t''
                               ((0x10000 + (hi - 0xD800) * 1024 + (lo - 0xDC00))%N
                                  :: acc)
                        else parse_string t' (hi :: acc)
                    | None => parse_string t' (hi :: acc)
                    end
                | _ => parse_string t' (hi :: acc)
                end
            end
        | e :: t' =>
            match simple_escape e with
            | Some x => parse_string t' (x :: acc)
            | None => None
            end
        | [] => None
        end
      else if (c <? 32)%N then None
      else parse_string t (c :: acc)
  end.

Definition all_zero_digits (ds : pystr) : bool :=
  forallb (fun c => (c =? 48)%N) ds.

Definition parse_number (s : pystr) : option (pyval * pystr) :=
  let '(neg, s1) := match s with
                    | 45%N :: t => (true, t)
                    | _ => (false, s)
                    end in
  let '(int_ds, s2) :=
    match s1 with
    | 48%N :: t => ([48%N], t)
    | _ => take_digits s1
    end in
  match int_ds with
  | [] => None
  | _ =>
      let '(frac, s3) :=
        match s2 with
        | 46%N :: t =>
            match take_digits t with
            | ([], _) => ([], s2)
            | (ds, r) => (46%N :: ds, r)
            end
        | _ => ([], s2)
        end in
      let '(exp, s4) :=
        match s3 with
        | e :: t =>
            if ((e =? 101) || (e =? 69))%N then
              let '(sign, t1) :=
                match t with
                | sg :: t' => if ((sg =? 43) || (sg =? 45))%N
                              then ([sg], t') else ([], t)
                | [] => ([], t)
                end in
              match take_digits t1 with
              | ([], _) => ([], s3)
              | (ds, r) => (e :: sign ++ ds, r)
              end
            else ([], s3)
        | [] => ([], s3)
        end in
      match frac, exp with
      | [], [] =>
          let v := digits_value int_ds in
          Some (PInt (if neg then (- v)%Z else v), s4)
      | _, _ =>
          Some (PFloat (all_zero_digits int_ds && all_zero_digits (tl frac))
                       ((if neg then [45%N] else []) ++ int_ds ++ frac ++ exp),
                s4)
      end
  end.

(** [d[k] = v] *)
Fixpoint dict_set (d : list (pystr * pyval)) (k : pystr) (v : pyval)
    : list (pystr * pyval) :=
  match d with
  | [] => [(k, v)]
  | (k', v') :: t => if str_eqb k' k then (k', v) :: t
                     else (k', v') :: dict_set t k v
  end.

Section WithValue.
Variable parse_value : pystr -> option (pyval * pystr).

(** The elements of an array, from its first element on. *)
Fixpoint parse_elements (fuel : nat) (s : pystr) (acc : list pyval)
    : option (list pyval * pystr) :=
  match fuel with
  | O => None
  | S fuel' =>
      match parse_value s with
      | None => None
      | Some (v, r) =>
          match skip_ws r with
          | 93%N :: r' => Some (rev (v :: acc), r')
          | 44%N :: r' => parse_elements fuel' (skip_ws r') (v :: acc)
          | _ => None
          end
      end
  end.

(** The members of an object, from the opening quote of a key on. *)
Fixpoint parse_members (fuel : nat) (s : pystr) (acc : list (pystr * pyval))
    : option (list (pystr * pyval) * pystr) :=
  match fuel with
  | O => None
  | S fuel' =>
      match s with
      | 34%N :: t =>
          match parse_string t [] with
          | None => None
          | Some (k, r) =>
              match skip_ws r with
              | 58%N :: r1 =>
                  match parse_value (skip_ws r1) with
                  | None => None
                  | Some (v, r2) =>
                      match skip_ws r2 with
                      | 125%N :: r3 => Some (dict_set acc k v, r3)
                      | 44%N :: r3 =>
                          parse_members fuel' (skip_ws r3) (dict_set acc k v)
                      | _ => None
                      end
                  end
              | _ => None
              end
          end
      | _ => None
      end
  end.
End WithValue.

Fixpoint starts_with (p s : pystr) : option pystr :=
  match p, s with
  | [], _ => Some s
  | a :: p', b :: s' => if (a =? b)%N then starts_with p' s' else None
  | _ :: _, [] => None
  end.

Fixpoint parse_value (fuel : nat) (s : pystr) : option (pyval * pystr) :=
  match fuel with
  | O => None
  | S fuel' =>
      match s with
      | 34%N :: t =>
          match parse_string t [] with
          | Some (x, r) => Some (PStr x, r)
          | None => None
          end
      | 123%N :: t =>
          match skip_ws t with
          | 125%N :: r => Some (PDict [], r)
          | t' =>
              match parse_members (parse_value fuel') (length t') t' [] with
              | Some (d, r) => Some (PDict d, r)
              | None => None
              end
          end
      | 91%N :: t =>
          match skip_ws t with
          | 93%N :: r => Some (PList [], r)
          | t' =>
              match parse_elements (parse_value fuel') (length t') t' [] with
              | Some (l, r) => Some (PList l, r)
              | None => None
              end
          end
      | _ =>
          match starts_with (u "null") s with
          | Some r => Some (PNone, r)
          | None =>
          match starts_with (u "true") s with
          | Some r => Some (PBool true, r)
          | None =>
          match starts_with (u "false") s with
          | Some r => Some (PBool false, r)
          | None =>
          match starts_with (u "NaN") s with
          | Some r => Some (PFloat false (u "nan"), r)
          | None =>
          match starts_with (u "Infinity") s with
          | Some r => Some (PFloat false (u "inf"), r)
          | None =>
          match starts_with (u "-Infinity") s with
          | Some r => Some (PFloat false (u "-inf"), r)
          | None => parse_number s
          end end end end end end
      end
  end.

(** [json.loads(s)]; [None] is [json.JSONDecodeError]. *)
Definition loads (s : pystr) : option pyval :=
  match parse_value (S (length s)) (skip_ws s) with
  | Some (v, r) => match skip_ws r with [] => Some v | _ => None end
  | None => None
  end.

(** Python's [repr] of a string, for text of printable characters. *)
Definition repr_char (quote c : N) : pystr :=
  (if c =? 92 then [92; 92]
   else if c =? quote then [92; quote]
   else if c =? 10 then [92; 110]
   else if c =? 13 then [92; 114]
   else if c =? 9 then [92; 116]
   else if (c <? 32) || (c =? 127) then
     [92; 120; MD5.hex_digit (c / 16); MD5.hex_digit (c mod 16)]
   else [c])%N.

Definition repr_str (s : pystr) : pystr :=
  let quote :=
    if existsb (N.eqb 39) s && negb (existsb (N.eqb 34) s)
    then 34%N else 39%N in
  [quote] ++ flat_map (repr_char quote) s ++ [quote].

(** [repr(v)] *)
Fixpoint repr (v : pyval) : pystr :=
  match v with
  | PNone => u "None"
  | PBool true => u "True"
  | PBool false => u "False"
  | PInt z => str_of_Z z
  | PFloat _ text => text
  | PStr s => repr_str s
  | PList items => u "[" ++ join (u ", ") (map repr items) ++ u "]"
  | PDict items =>
      u "{" ++ join (u ", ")
                    (map (fun kv => match kv with
                                    | (k, x) => repr_str k ++ u ": " ++ repr x
                                    end) items)
        ++ u "}"
  end.

End JsonRef.


(** JSON text written with ['] for the double quote. *)
Definition json_text (s : String.string) : pystr :=
  map (fun c => if (c =? 39)%N then 34%N else c) (u s).
Arguments json_text s%_string.

(* ================================================================== *)
(** * Vocabulary of the specification *)
(* ================================================================== *)

(** Text that holds nothing but whitespace. *)
Definition all_space (s : pystr) : bool := forallb isspace s.

(** The cell of the first data row under a label. *)
Definition first_row_cell (df : DataFrame) (name : pystr) : cell :=
  row_get (columns df) (hd [] (rows df)) name.

(** The normalised data date: dashes removed, then trimmed. *)
Definition normalized_date (df : DataFrame) : pystr :=
  strip (remove_char DASH (clean_cell_value (first_row_cell df COL_DATA_DATE))).

(** [appends m r evs]: from every state, [m] yields [r], appends [evs] to
    the log and leaves the clock alone. *)
Definition appends {A} (m : M A) (r : result A) (evs : list event) : Prop :=
  forall s, m s = (r, mkState (logs s ++ evs) (ticks s)).

Definition logs_only {A} (m : M A) : Prop :=
  exists r evs, appends m r evs.

(** A lowercase hexadecimal digit. *)
Definition is_lower_hex (c : N) : bool :=
  ((48 <=? c) && (c <=? 57) || (97 <=? c) && (c <=? 102))%N.

(** The archive of one form as the specification describes it: the
    ZIP-file name and the two entries made from the form's records, its
    English code and the time of creation. *)
Definition artifact_of (credit_code data_date : pystr) (records : list pystr)
    (english_code timestamp : pystr) : pystr * zip_archive :=
  let base := credit_code ++ u "_" ++ english_code ++ u "_CHK_" ++ data_date in
  let dat_bytes := encode_utf8 (join [NEWLINE] records) in
  (base ++ u ".zip",
   [(base ++ u ".dat", dat_bytes);
    (base ++ u ".log",
     encode_utf8
       (join [NEWLINE]
             [base ++ u ".dat"; get_bytes_md5 dat_bytes;
              str_of_nat (length dat_bytes); timestamp;
              str_of_nat (count_nonblank records)]))]).

(** Two archives that differ at most in the timestamp line of the log. *)
Definition same_but_timestamp (z1 z2 : pystr * zip_archive) : Prop :=
  exists zip_name dat_name dat_bytes log_name line1 line2 line3 line5 t1 t2,
    z1 = (zip_name,
          [(dat_name, dat_bytes);
           (log_name,
            encode_utf8 (join [NEWLINE] [line1; line2; line3; t1; line5]))]) /\
    z2 = (zip_name,
          [(dat_name, dat_bytes);
           (log_name,
            encode_utf8 (join [NEWLINE] [line1; line2; line3; t2; line5]))]).

(** An archive made by packing the records of some form of the run. *)
Definition packed (json_loads : pystr -> option pyval)
    (py_repr : pyval -> pystr) (excel_file : ExcelFile) (clock : nat -> pystr)
    (credit_code data_date : pystr) (z : pystr * zip_archive) : Prop :=
  exists b cg s s1 records en,
    process_business_data json_loads py_repr excel_file b cg s = (Ok (records, en), s1) /\
    z = artifact_of credit_code data_date records en (clock (ticks s1)).

(** The number of non-blank lines of a text, lines being separated by the
    newline character. *)
Definition nonblank_lines (text : pystr) : nat :=
  count_nonblank (split NEWLINE text).

(** The layout of a form's archive under the task identity
    [(credit_code, data_date)]: the archive is named after the base name,
    holds the data file (the records joined by newlines, in UTF-8) and the
    log file, and the log file is the UTF-8 text of five lines joined by
    newlines: the name of the data file, the digest of the data bytes (empty
    for an empty data file, else 32 lowercase hexadecimal digits), the number
    of data bytes, a timestamp, and the number of records whose trimmed text
    is not empty. *)
Definition log_layout (json_loads : pystr -> option pyval)
    (py_repr : pyval -> pystr) (excel_file : ExcelFile)
    (credit_code data_date : pystr) (z : pystr * zip_archive) : Prop :=
  exists (form : business) (records : list pystr) (timestamp : pystr),
    let english_code := clean_cell_value (form_en_name form) in
    let base := credit_code ++ u "_" ++ english_code ++ u "_CHK_" ++ data_date in
    let dat_bytes := encode_utf8 (join [NEWLINE] records) in
    let digest := match dat_bytes with
                  | [] => []
                  | _ => MD5.hexdigest dat_bytes
                  end in
    let count := length (filter (fun r => negb (is_empty (strip r))) records) in
    (exists cg s s1,
        process_business_data json_loads py_repr excel_file form cg s
        = (Ok (records, english_code), s1)) /\
    z = (base ++ u ".zip",
         [(base ++ u ".dat", dat_bytes);
          (base ++ u ".log",
           encode_utf8
             (join [NEWLINE]
                   [base ++ u ".dat"; digest; str_of_nat (length dat_bytes);
                    timestamp; str_of_nat count]))]) /\
    forallb is_lower_hex digest = true /\
    (dat_bytes <> [] -> length digest = 32).

(** What the record count of a form's log says about its data file: the
    data file is the newline-join of the records of a form, line 5 of the
    log is the number of these records, and it is the number of non-blank
    lines of the data file when no record holds a newline. *)
Definition line_count_layout (json_loads : pystr -> option pyval)
    (py_repr : pyval -> pystr) (excel_file : ExcelFile)
    (z : pystr * zip_archive) : Prop :=
  exists zip_name dat_name log_name line1 line2 line3 line4 (records : list pystr),
    (exists form cg s s1 en,
        process_business_data json_loads py_repr excel_file form cg s
        = (Ok (records, en), s1)) /\
    z = (zip_name,
         [(dat_name, encode_utf8 (join [NEWLINE] records));
          (log_name,
           encode_utf8
             (join [NEWLINE]
                   [line1; line2; line3; line4;
                    str_of_nat (count_nonblank records)]))]) /\
    count_nonblank records = length records /\
    ((forall r, In r records -> ~ In NEWLINE r) ->
     nonblank_lines (join [NEWLINE] records) = count_nonblank records).

(** The part of [main] before the loop over the forms: the task identity,
    the check-result index and the list of forms. *)
Definition main_read (excel_file : ExcelFile)
    : M (pystr * pystr * option GroupBy * list business) :=
  let names := sheet_names excel_file in
  log (EvSheets names) ;;
  match filter (fun s => negb (str_mem s names)) [SHEET_TASK; SHEET_BUSINESS] with
  | (_ :: _) as missing => raise (ValueError (MsgMissingSheets missing))
  | [] =>
      df_task <- lift (read_excel excel_file SHEET_TASK) ;;
      ' (credit_code, data_date) <- lift (read_task_info df_task) ;;
      log (EvCreditCode credit_code) ;;
      log (EvDataDate data_date) ;;
      df_business <- lift (read_excel excel_file SHEET_BUSINESS) ;;
      business_list <- lift (read_business_info df_business) ;;
      log (EvBusinessCount (length (substitute_default business_list))) ;;
      check_group <- read_check_group excel_file names ;;
      ret (credit_code, data_date, check_group, substitute_default business_list)
  end.

(** Two results of the processing that agree up to the timestamps. *)
Definition same_result (r1 r2 : result (list (pystr * zip_archive)) * state) : Prop :=
  logs (snd r1) = logs (snd r2) /\
  match fst r1, fst r2 with
  | Ok l1, Ok l2 => Forall2 same_but_timestamp l1 l2
  | Raise e1, Raise e2 => e1 = e2
  | _, _ => False
  end.

(** [part1] of a check row: 01|C|I|G|. *)
Definition part1_of (check_row : list cell) : pystr :=
  u "01|" ++ clean_cell_value (field check_row 2) ++ u "|"
    ++ clean_cell_value (field check_row 8) ++ u "|"
    ++ clean_cell_value (field check_row 6) ++ u "|".

(** [part2] of a sample row: the cleaned cells from index 3 on (after the
    temporary column is dropped), joined by @&@. *)
Definition part2_of (cols : list pystr) (sample_row : list cell) : pystr :=
  join (u "@&@")
       (map clean_cell_value (skipn 3 (drop_temp_column cols sample_row))).



(** The result of a computation run from the empty log, and the entries it
    logs. *)
Definition outcome_of {A} (m : M A) : result A := fst (m (mkState [] 0)).

Definition events_of {A} (m : M A) : list event := logs (snd (m (mkState [] 0))).

(** [isinstance(v, dict)] *)
Definition is_dict (v : pyval) : bool :=
  match v with PDict _ => true | _ => false end.

(** A check row whose J value is not empty and decodes to a true value
    that is not a dict. *)
Definition row_aborts (json_loads : pystr -> option pyval)
    (check_row : list cell) : bool :=
  let j_val := clean_cell_value (field check_row 9) in
  negb (is_empty j_val)
  && match json_loads j_val with
     | Some v => truthy v && negb (is_dict v)
     | None => false
     end.

(** The check rows of a form: the rows of its group, none without index. *)
Definition form_rows (check_group : option GroupBy) (b : business)
    : list (list cell) :=
  match check_group with
  | None => []
  | Some g => get_group g (clean_cell_value (form_name b))
  end.

(** The name of the archive of a form. *)
Definition zip_name (credit_code data_date : pystr) (b : business) : pystr :=
  (credit_code ++ u "_" ++ clean_cell_value (form_en_name b) ++ u "_CHK_"
     ++ data_date) ++ u ".zip".

(** The records a list of row outcomes leaves in [dat_strings]. *)
Definition appended (flows : list flow) : list pystr :=
  flat_map (fun f => match f with Append x => [x] | Continue => [] end) flows.

(** What a check row does to [dat_strings], and the entries it logs. *)
Definition flow_of (json_loads : pystr -> option pyval)
    (py_repr : pyval -> pystr) (excel_file : ExcelFile) (name : pystr)
    (check_row : list cell) : flow :=
  match outcome_of (process_check_row json_loads py_repr excel_file name check_row) with
  | Ok f => f
  | Raise _ => Continue
  end.

Definition row_events (json_loads : pystr -> option pyval)
    (py_repr : pyval -> pystr) (excel_file : ExcelFile) (name : pystr)
    (check_row : list cell) : list event :=
  events_of (process_check_row json_loads py_repr excel_file name check_row).

(** A form one of whose check rows aborts. *)
Definition form_aborts (json_loads : pystr -> option pyval)
    (check_group : option GroupBy) (b : business) : bool :=
  existsb (row_aborts json_loads) (form_rows check_group b).

(** The form has a group of check rows in the index. *)
Definition has_group (check_group : option GroupBy) (b : business) : bool :=
  match check_group with
  | None => false
  | Some g => in_groups (clean_cell_value (form_name b)) g
  end.

(** The entries [process_business_data] logs for a form none of whose rows
    aborts. *)
Definition form_events (json_loads : pystr -> option pyval)
    (py_repr : pyval -> pystr) (excel_file : ExcelFile)
    (check_group : option GroupBy) (b : business) : list event :=
  let name := clean_cell_value (form_name b) in
  let rows := form_rows check_group b in
  EvFormHeader name (clean_cell_value (form_en_name b))
    :: (if has_group check_group b
        then EvFoundRows (length rows)
               :: flat_map (row_events json_loads py_repr excel_file name) rows
               ++ [EvFormDone
                     (length (appended
                                (map (flow_of json_loads py_repr excel_file name)
                                     rows)))]
        else [EvWarnNoCheckData]).

(** The records of a form none of whose rows aborts: those of its check
    rows that append, in row order. *)
Definition form_records (json_loads : pystr -> option pyval)
    (py_repr : pyval -> pystr) (excel_file : ExcelFile)
    (check_group : option GroupBy) (b : business) : list pystr :=
  appended (map (flow_of json_loads py_repr excel_file
                         (clean_cell_value (form_name b)))
                (form_rows check_group b)).

(** The entries the loop body of [main] logs for such a form. *)
Definition form_log (json_loads : pystr -> option pyval)
    (py_repr : pyval -> pystr) (excel_file : ExcelFile)
    (credit_code data_date : pystr) (check_group : option GroupBy)
    (b : business) : list event :=
  form_events json_loads py_repr excel_file check_group b
    ++ [EvZipDone (zip_name credit_code data_date b)].

(** The archives of a list of forms with the records [records_of] gives
    them, the clock being read for the [k]-th time at the first form. *)
Fixpoint job_archives (clock : nat -> pystr) (credit_code data_date : pystr)
    (records_of : business -> list pystr) (forms : list business) (k : nat)
    : list (pystr * zip_archive) :=
  match forms with
  | [] => []
  | b :: rest =>
      artifact_of credit_code data_date (records_of b)
                  (clean_cell_value (form_en_name b)) (clock k)
        :: job_archives clock credit_code data_date records_of rest (S k)
  end.

(** The index of check rows a workbook gives, and the entries building it
    logs. *)
Definition check_index (excel_file : ExcelFile) : option GroupBy :=
  match read_excel excel_file SHEET_CHECK with
  | Ok df_check =>
      if str_mem COL_CHECK_FORM (columns df_check) && negb (df_empty df_check)
      then Some (mkGroupBy df_check COL_CHECK_FORM)
      else None
  | Raise _ => None
  end.

Definition check_index_events (excel_file : ExcelFile) : list event :=
  match read_excel excel_file SHEET_CHECK with
  | Ok df_check =>
      if str_mem COL_CHECK_FORM (columns df_check)
      then [EvCheckGrouped (length (rows df_check))]
      else [EvWarnNoFormColumn]
  | Raise _ => []
  end.

(** The required sheets a workbook lacks. *)
Definition missing_sheets (excel_file : ExcelFile) : list pystr :=
  filter (fun s => negb (str_mem s (sheet_names excel_file)))
         [SHEET_TASK; SHEET_BUSINESS].

(** A file system with one file. *)
Definition one_file (path : pystr) (content : bytes) : file_system :=
  fun p => if str_eqb p path then Some content else None.

(* ================================================================== *)
(** * Example workbooks *)
(* ================================================================== *)

(** The workbook of the end-to-end scenario of the specification, with the
    C cell and the J cell of its one check row, and the sheets of sample
    data, left open. *)
Definition task_sheet : DataFrame :=
  mkDF [COL_CREDIT_CODE; COL_DATA_DATE]
       [[Str (u "9111010000"); Str (u "2024-01-05")]].

Definition business_sheet : DataFrame :=
  mkDF [COL_FORM_NAME; COL_FORM_EN_NAME]
       [[Str (u "企业信息"); Str (u "CompanyInfo")]].

Definition check_sheet (c_cell j_cell : cell) : DataFrame :=
  mkDF [COL_CHECK_FORM; u "B"; u "C"; u "D"; u "E"; u "F"; u "G"; u "H";
        u "I"; u "J"]
       [[Str (u "企业信息"); NaN; c_cell; NaN; NaN; NaN; Str (u "G1"); NaN;
         Str (u "I1"); j_cell]].

Definition sample_sheet : DataFrame :=
  mkDF [u "A"; u "B"; u "C"; u "D"; u "E"]
       [[NaN; NaN; Str (u "3"); Str (u "v1"); Str (u "v2")]].

Definition workbook (c_cell j_cell : cell)
    (sample_sheets : list (pystr * DataFrame)) : ExcelFile :=
  mkExcel ([(SHEET_TASK, task_sheet); (SHEET_BUSINESS, business_sheet);
            (SHEET_CHECK, check_sheet c_cell j_cell)] ++ sample_sheets).

Definition rows_payload : cell := Str (json_text "{'rows':['3']}").

(** The scenario itself. *)
Definition wb_scenario : ExcelFile :=
  workbook (Str (u "A1")) rows_payload [(u "示例数据_企业信息", sample_sheet)].

(** The scenario without the sheet 示例数据_企业信息. *)
Definition wb_no_sample_sheet : ExcelFile :=
  workbook (Str (u "A1")) rows_payload [].

(** The scenario with a JSON array in the J cell. *)
Definition wb_json_array : ExcelFile :=
  workbook (Str (u "A1")) (Str (u "[1]")) [(u "示例数据_企业信息", sample_sheet)].

(** The scenario with a line break inside the C cell. *)
Definition wb_multiline_cell : ExcelFile :=
  workbook (Str [65; 49; 10; 120]%N) rows_payload
           [(u "示例数据_企业信息", sample_sheet)].

(** The scenario with a sample sheet that has no row with field 2 = 3. *)
Definition wb_no_match : ExcelFile :=
  workbook (Str (u "A1")) rows_payload
           [(u "示例数据_企业信息",
             mkDF [u "A"; u "B"; u "C"; u "D"; u "E"]
                  [[NaN; NaN; Str (u "4"); Str (u "v1"); Str (u "v2")]])].

(** The scenario with malformed JSON in the J cell. *)
Definition wb_malformed_json : ExcelFile :=
  workbook (Str (u "A1")) (Str (u "{not json"))
           [(u "示例数据_企业信息", sample_sheet)].

(** The scenario without the sheet 校验结果. *)
Definition wb_no_check_sheet : ExcelFile :=
  mkExcel [(SHEET_TASK, task_sheet); (SHEET_BUSINESS, business_sheet)].


Definition company_form : business :=
  mkBusiness (Str (u "企业信息")) (Str (u "CompanyInfo")).

Definition fixed_clock : nat -> pystr := fun _ => u "2024-01-05 10:00:00".

(** The archive of the end-to-end scenario, which the run of [main] on
    [wb_scenario] with [fixed_clock] yields. *)
Definition scenario_archives : list (pystr * zip_archive) :=
  let base := u "9111010000_CompanyInfo_CHK_20240105" in
  [(base ++ u ".zip",
    [(base ++ u ".dat", encode_utf8 (u "01|A1|I1|G1|v1@&@v2"));
     (base ++ u ".log",
      encode_utf8
        (join [NEWLINE]
              [base ++ u ".dat"; u "def115ef6a40f288b8a3e18f955a1d81";
               u "19"; u "2024-01-05 10:00:00"; u "1"]))])].

(* ================================================================== *)
(** * Properties of the string functions *)
(* ================================================================== *)

Section StripFacts.

Lemma lstrip_decompose (s : pystr) :
  exists l, s = l ++ lstrip s /\ all_space l = true.
Proof.
  induction s as [|c t IH]; simpl.
  - exists []; auto.
  - destruct (isspace c) eqn:Hc.
    + destruct IH as [l [E Hl]]. exists (c :: l). simpl.
      rewrite Hc, Hl. split; [f_equal; exact E | reflexivity].
    + exists []. auto.
Qed.

Lemma lstrip_head (s : pystr) (c : N) (t : pystr) :
  lstrip s = c :: t -> isspace c = false.
Proof.
  induction s as [|a s IH]; simpl; [discriminate|].
  destruct (isspace a) eqn:Ha; [exact IH|].
  intros E; injection E as <- _. exact Ha.
Qed.

Lemma lstrip_nil_iff (s : pystr) : lstrip s = [] <-> all_space s = true.
Proof.
  induction s as [|a s IH]; simpl; [tauto|].
  destruct (isspace a); simpl; [exact IH|].
  split; discriminate.
Qed.

Lemma lstrip_idem_head (c : N) (t : pystr) :
  isspace c = false -> lstrip (c :: t) = c :: t.
Proof. intros H; simpl; now rewrite H. Qed.

Lemma all_space_app (a b : pystr) :
  all_space (a ++ b) = all_space a && all_space b.
Proof. apply forallb_app. Qed.

Lemma all_space_rev (a : pystr) : all_space (rev a) = all_space a.
Proof.
  induction a as [|x a IH]; simpl; [reflexivity|].
  rewrite all_space_app, IH. simpl. rewrite andb_true_r. apply andb_comm.
Qed.

Lemma rstrip_decompose (s : pystr) :
  exists r, s = rstrip s ++ r /\ all_space r = true.
Proof.
  unfold rstrip. destruct (lstrip_decompose (rev s)) as [l [E Hl]].
  exists (rev l). split.
  - rewrite <- rev_app_distr, <- E. symmetry; apply rev_involutive.
  - now rewrite all_space_rev.
Qed.

Lemma rstrip_last (s : pystr) (c : N) (t : pystr) :
  rstrip s = t ++ [c] -> isspace c = false.
Proof.
  unfold rstrip. intros E.
  apply (f_equal (@rev N)) in E. rewrite rev_involutive, rev_app_distr in E.
  simpl in E. eapply lstrip_head; eauto.
Qed.

Lemma rstrip_nil_iff (s : pystr) : rstrip s = [] <-> all_space s = true.
Proof.
  unfold rstrip. rewrite <- (all_space_rev s), <- lstrip_nil_iff.
  split; intros H.
  - apply (f_equal (@rev N)) in H. now rewrite rev_involutive in H.
  - now rewrite H.
Qed.

(** Stripping on the right keeps a first character that is not blank. *)
Lemma rstrip_keeps_head (c : N) (t : pystr) :
  isspace c = false -> exists t', rstrip (c :: t) = c :: t'.
Proof.
  intros Hc. unfold rstrip. simpl.
  destruct (lstrip_decompose (rev t ++ [c])) as [l [E Hl]].
  destruct (lstrip (rev t ++ [c])) as [|x xs] eqn:Hx using rev_ind.
  - rewrite app_nil_r in E. rewrite <- E in Hl.
    rewrite all_space_app in Hl. simpl in Hl. rewrite Hc in Hl.
    rewrite andb_false_r in Hl. discriminate.
  - clear IHxs. rewrite app_assoc in E.
    apply app_inj_tail in E. destruct E as [_ ->].
    rewrite rev_app_distr. simpl. eauto.
Qed.

Lemma strip_decompose (s : pystr) :
  exists l r, s = l ++ strip s ++ r /\ all_space l = true /\ all_space r = true.
Proof.
  destruct (lstrip_decompose s) as [l [E Hl]].
  destruct (rstrip_decompose (lstrip s)) as [r [E' Hr]].
  exists l, r. unfold strip. rewrite <- E'. auto.
Qed.

Lemma strip_nil_iff (s : pystr) : strip s = [] <-> all_space s = true.
Proof.
  unfold strip. rewrite rstrip_nil_iff.
  destruct (lstrip_decompose s) as [l [E Hl]].
  split; intros H.
  - rewrite E, all_space_app, Hl, H. reflexivity.
  - rewrite E, all_space_app, Hl in H. exact H.
Qed.

Lemma strip_first (s : pystr) (c : N) (t : pystr) :
  strip s = c :: t -> isspace c = false.
Proof.
  unfold strip. intros E.
  destruct (lstrip s) as [|a w] eqn:Hl.
  - unfold rstrip in E. simpl in E. discriminate.
  - pose proof (lstrip_head _ Hl) as Ha.
    destruct (@rstrip_keeps_head a w Ha) as [t' E'].
    rewrite E' in E. injection E as <- _. exact Ha.
Qed.

Lemma strip_last (s : pystr) (c : N) (t : pystr) :
  strip s = t ++ [c] -> isspace c = false.
Proof. unfold strip. apply rstrip_last. Qed.

(** Text that neither starts nor ends with a blank is left as it is. *)
Lemma strip_nonblank_head (c : N) (t : pystr) :
  isspace c = false -> exists t', strip (c :: t) = c :: t'.
Proof.
  intros Hc. unfold strip. rewrite lstrip_idem_head by exact Hc.
  now apply rstrip_keeps_head.
Qed.

End StripFacts.

(* ================================================================== *)
(** * CellNormalizer *)
(* ================================================================== *)

Lemma clean_cell_value_str (s : pystr) : clean_cell_value (Str s) = strip s.
Proof. destruct s; reflexivity. Qed.

Lemma clean_cell_value_nan : clean_cell_value NaN = [].
Proof. reflexivity. Qed.

(** C3, as the specification states it: the result is empty exactly for a
    missing cell and for the empty string.  A cell of blanks refutes it. *)
Lemma clean_cell_value_blank_counterexample :
  ~ (forall v : cell, clean_cell_value v = [] <-> (v = NaN \/ v = Str [])).
Proof.
  intros H. destruct (H (Str [32%N])) as [H1 _].
  destruct (H1 eq_refl) as [E | E]; discriminate.
Qed.

(** C3 (amended): [clean_cell_value] is a total function; its result is
    empty exactly when the cell is missing or its text holds nothing but
    whitespace (the empty string included); for every text cell the result
    is the text without its leading and trailing whitespace: the text is
    [l ++ result ++ r] with [l] and [r] all whitespace, and the result
    neither starts nor ends with a whitespace character. *)
Theorem clean_cell_value_spec :
  (forall v : cell,
      clean_cell_value v = [] <->
      (v = NaN \/ exists s, v = Str s /\ all_space s = true)) /\
  (forall s : pystr,
      clean_cell_value (Str s) = strip s /\
      (exists l r, s = l ++ clean_cell_value (Str s) ++ r /\
                   all_space l = true /\ all_space r = true) /\
      (forall c t, clean_cell_value (Str s) = c :: t -> isspace c = false) /\
      (forall c t, clean_cell_value (Str s) = t ++ [c] -> isspace c = false)).
Proof.
  split.
  - intros [|s].
    + split; [intros _; now left | reflexivity].
    + rewrite clean_cell_value_str, strip_nil_iff. split.
      * intros H. right. exists s. auto.
      * intros [E | [s' [E H]]]; [discriminate|]. now injection E as ->.
  - intros s. rewrite clean_cell_value_str.
    split; [reflexivity|]. split; [apply strip_decompose|].
    split; intros c t E; [eapply strip_first | eapply strip_last]; eauto.
Qed.

(* ================================================================== *)
(** * Membership, columns and deduplication *)
(* ================================================================== *)

Lemma str_eqb_eq (a b : pystr) : str_eqb a b = true <-> a = b.
Proof.
  unfold str_eqb. destruct (pystr_eq_dec a b); split; congruence.
Qed.

Lemma str_eqb_refl (a : pystr) : str_eqb a a = true.
Proof. now apply str_eqb_eq. Qed.

Lemma str_mem_In (x : pystr) (l : list pystr) : str_mem x l = true <-> In x l.
Proof.
  unfold str_mem. rewrite existsb_exists. split.
  - intros [y [Hy E]]. apply str_eqb_eq in E. now subst.
  - intros H. exists x. split; [exact H | apply str_eqb_refl].
Qed.

Lemma str_mem_false (x : pystr) (l : list pystr) :
  str_mem x l = false <-> ~ In x l.
Proof.
  rewrite <- str_mem_In. destruct (str_mem x l); split; congruence.
Qed.

Lemma cell_eqb_eq (a b : cell) : cell_eqb a b = true <-> a = b.
Proof.
  unfold cell_eqb. destruct (cell_eq_dec a b); split; congruence.
Qed.

(** No required column is missing exactly when each is a column. *)
Lemma missing_columns_nil (required : list pystr) (df : DataFrame) :
  missing_columns required df = [] <->
  Forall (fun c => In c (columns df)) required.
Proof.
  unfold missing_columns. induction required as [|c t IH]; simpl.
  - split; auto.
  - destruct (str_mem c (columns df)) eqn:Hc; simpl.
    + rewrite IH. apply str_mem_In in Hc. split.
      * intros H; constructor; assumption.
      * intros H; now inversion H.
    + apply str_mem_false in Hc. split; [discriminate|].
      intros H; inversion H; contradiction.
Qed.

Section DropDuplicatesFacts.
Context {A : Type} (eq_dec : forall a b : A, {a = b} + {a <> b}).

Lemma mem_In (x : A) (l : list A) : mem eq_dec x l = true <-> In x l.
Proof. unfold mem. destruct (in_dec eq_dec x l); split; congruence. Qed.

Lemma mem_false (x : A) (l : list A) : mem eq_dec x l = false <-> ~ In x l.
Proof. unfold mem. destruct (in_dec eq_dec x l); split; congruence. Qed.

Lemma drop_duplicates_from_In (l seen : list A) (x : A) :
  In x (drop_duplicates_from eq_dec seen l) <-> In x l /\ ~ In x seen.
Proof.
  revert seen. induction l as [|a l IH]; intros seen; simpl.
  - tauto.
  - destruct (mem eq_dec a seen) eqn:Ha.
    + apply mem_In in Ha. rewrite IH. split.
      * intros [H1 H2]; auto.
      * intros [[-> | H1] H2]; [contradiction | auto].
    + apply mem_false in Ha. simpl. rewrite IH. simpl. split.
      * intros [-> | [H1 H2]]; [auto|]. split; [auto|]. intros H; apply H2; auto.
      * intros [[-> | H1] H2]; [auto|].
        destruct (eq_dec a x) as [-> | Hne]; [auto|].
        right. split; [auto|]. intros [E | H]; [contradiction | contradiction].
Qed.

Lemma drop_duplicates_from_NoDup (l seen : list A) :
  NoDup (drop_duplicates_from eq_dec seen l).
Proof.
  revert seen. induction l as [|a l IH]; intros seen; simpl.
  - constructor.
  - destruct (mem eq_dec a seen); [apply IH|].
    constructor; [|apply IH].
    rewrite drop_duplicates_from_In. simpl. intros [_ H]. apply H; auto.
Qed.

(** A row appended to the table is kept, at the end, exactly when it has
    not been seen before. *)
Lemma drop_duplicates_from_snoc (l seen : list A) (x : A) :
  drop_duplicates_from eq_dec seen (l ++ [x]) =
  drop_duplicates_from eq_dec seen l
    ++ (if mem eq_dec x (seen ++ l) then [] else [x]).
Proof.
  revert seen. induction l as [|a l IH]; intros seen; simpl.
  - rewrite app_nil_r. now destruct (mem eq_dec x seen).
  - destruct (mem eq_dec a seen) eqn:Ha.
    + rewrite IH. f_equal.
      destruct (mem eq_dec x (seen ++ l)) eqn:H1;
        destruct (mem eq_dec x (seen ++ a :: l)) eqn:H2; try reflexivity.
      * apply mem_In in H1. apply mem_false in H2. exfalso. apply H2.
        rewrite in_app_iff in *. simpl. tauto.
      * apply mem_false in H1. apply mem_In in H2. apply mem_In in Ha.
        exfalso. apply H1. rewrite in_app_iff in *. simpl in H2.
        destruct H2 as [H2 | [-> | H2]]; auto.
    + simpl. rewrite IH. f_equal. f_equal.
      destruct (mem eq_dec x ((a :: seen) ++ l)) eqn:H1;
        destruct (mem eq_dec x (seen ++ a :: l)) eqn:H2; try reflexivity.
      * apply mem_In in H1. apply mem_false in H2. exfalso. apply H2.
        simpl in H1. rewrite in_app_iff in *. simpl. tauto.
      * apply mem_false in H1. apply mem_In in H2. exfalso. apply H1.
        simpl. rewrite in_app_iff in *. simpl in H2. tauto.
Qed.

Lemma drop_duplicates_NoDup (l : list A) : NoDup (drop_duplicates eq_dec l).
Proof. apply drop_duplicates_from_NoDup. Qed.

Lemma drop_duplicates_In (l : list A) (x : A) :
  In x (drop_duplicates eq_dec l) <-> In x l.
Proof. unfold drop_duplicates. rewrite drop_duplicates_from_In. simpl. tauto. Qed.

Lemma drop_duplicates_snoc (l : list A) (x : A) :
  drop_duplicates eq_dec (l ++ [x]) =
  drop_duplicates eq_dec l ++ (if mem eq_dec x l then [] else [x]).
Proof. unfold drop_duplicates. now rewrite drop_duplicates_from_snoc. Qed.

(** The three-row table of the specification. *)
Lemma drop_duplicates_twice_then_other (a b : A) :
  a <> b -> drop_duplicates eq_dec [a; a; b] = [a; b].
Proof.
  intros Hab. unfold drop_duplicates.
  assert (H0 : mem eq_dec a [] = false) by reflexivity.
  assert (Ha : mem eq_dec a [a] = true) by (apply mem_In; simpl; auto).
  assert (Hb : mem eq_dec b [a] = false).
  { apply mem_false. simpl. intros [E | []]. now apply Hab. }
  cbn [drop_duplicates_from]. rewrite H0, Ha, Hb. reflexivity.
Qed.

End DropDuplicatesFacts.

(* ================================================================== *)
(** * TaskIdentityReader *)
(* ================================================================== *)

Lemma strip_incl (s : pystr) (c : N) : In c (strip s) -> In c s.
Proof.
  destruct (strip_decompose s) as [l [r [E _]]].
  intros H. rewrite E. rewrite !in_app_iff. tauto.
Qed.

Lemma remove_char_not_In (c : N) (s : pystr) : ~ In c (remove_char c s).
Proof.
  unfold remove_char. rewrite filter_In. intros [_ H].
  rewrite N.eqb_refl in H. discriminate.
Qed.

Lemma df_empty_true (df : DataFrame) :
  df_empty df = true <-> columns df = [] \/ rows df = [].
Proof.
  unfold df_empty. destruct (columns df), (rows df); simpl;
    (split; [intros H; try discriminate; auto
            | intros H; destruct H; congruence]).
Qed.

(** C5, as the specification states it: failure exactly when the table has
    no rows, a required column is absent, or the data date with its dashes
    stripped is empty.  The date [- -] refutes it: with the dashes stripped
    a blank is left, which is not empty, and [read_task_info] still raises,
    because it trims the de-dashed text before the test. *)
Lemma read_task_info_blank_date_counterexample :
  ~ (forall df : DataFrame,
        (exists e, read_task_info df = Raise e) <->
        (rows df = [] \/ ~ In COL_CREDIT_CODE (columns df)
         \/ ~ In COL_DATA_DATE (columns df)
         \/ remove_char DASH
              (clean_cell_value (first_row_cell df COL_DATA_DATE)) = [])).
Proof.
  intros H.
  destruct (H (mkDF [COL_CREDIT_CODE; COL_DATA_DATE]
                    [[Str (u "9111010000"); Str (u "- -")]])) as [H1 _].
  destruct H1 as [E | [E | [E | E]]].
  - exists (ValueError MsgDataDateEmpty). vm_compute. reflexivity.
  - discriminate.
  - apply E. simpl. auto.
  - apply E. simpl. auto.
  - vm_compute in E. discriminate.
Qed.

(** C5 (amended): [read_task_info] raises, and then a [ValueError], exactly
    when the table has no rows, the credit-code column or the data-date
    column is absent, or the normalised data date (the cleaned cell with its
    dashes stripped and then trimmed again) is empty; when it returns, the
    data date is that normalised date and holds no dash, and the credit code
    is the cleaned (trimmed) cell of the first row. *)
Theorem read_task_info_spec (df : DataFrame) :
  ((exists e, read_task_info df = Raise e) <->
   (rows df = [] \/ ~ In COL_CREDIT_CODE (columns df)
    \/ ~ In COL_DATA_DATE (columns df) \/ normalized_date df = [])) /\
  (forall e, read_task_info df = Raise e -> exists msg, e = ValueError msg) /\
  (forall credit_code data_date,
      read_task_info df = Ok (credit_code, data_date) ->
      ~ In DASH data_date /\
      data_date = normalized_date df /\
      credit_code = clean_cell_value (first_row_cell df COL_CREDIT_CODE)).
Proof.
  unfold read_task_info.
  destruct (df_empty df) eqn:He.
  - split; [|split].
    + split; [|intros _; eauto].
      intros _. apply df_empty_true in He. destruct He as [Hc | Hr]; [|auto].
      right; left. rewrite Hc. simpl. tauto.
    + intros e E. injection E as <-. eauto.
    + discriminate.
  - assert (Hrows : rows df <> []).
    { intros H. assert (df_empty df = true) by (apply df_empty_true; auto).
      congruence. }
    destruct (missing_columns [COL_CREDIT_CODE; COL_DATA_DATE] df) as [|m ms] eqn:Hm.
    + apply missing_columns_nil in Hm.
      inversion Hm as [|? ? Hc Hm']; subst. inversion Hm' as [|? ? Hd _]; subst.
      fold (first_row_cell df COL_CREDIT_CODE).
      fold (first_row_cell df COL_DATA_DATE).
      fold (normalized_date df).
      destruct (normalized_date df) as [|c t] eqn:Hn; simpl.
      * split; [|split]; [split; eauto 6 | |discriminate].
        intros e E. injection E as <-. eauto.
      * split; [|split]; [| discriminate |].
        -- split; [intros [e E]; discriminate|].
           intros [H | [H | [H | H]]]; try contradiction; discriminate.
        -- intros cc dd E. injection E as <- <-.
           split; [|split; reflexivity].
           rewrite <- Hn. unfold normalized_date. intros H.
           apply strip_incl in H. revert H. apply remove_char_not_In.
    + split; [|split]; [| |discriminate].
      * split; [|intros _; eauto]. intros _.
        assert (Hnot : ~ Forall (fun c => In c (columns df))
                         [COL_CREDIT_CODE; COL_DATA_DATE]).
        { intros H. apply missing_columns_nil in H. congruence. }
        destruct (in_dec pystr_eq_dec COL_CREDIT_CODE (columns df)) as [H1|H1];
          [|auto].
        destruct (in_dec pystr_eq_dec COL_DATA_DATE (columns df)) as [H2|H2];
          [|auto].
        exfalso. apply Hnot. repeat constructor; assumption.
      * intros e E. injection E as <-. eauto.
Qed.

(** The task sheet of the scenario. *)
Lemma read_task_info_spec_witness :
  ~ In DASH (u "20240105") /\
  u "20240105" = normalized_date task_sheet /\
  u "9111010000" = clean_cell_value (first_row_cell task_sheet COL_CREDIT_CODE).
Proof.
  exact (proj2 (proj2 (read_task_info_spec task_sheet))
               (u "9111010000") (u "20240105") eq_refl).
Defined.

(* ================================================================== *)
(** * BusinessCatalogReader *)
(* ================================================================== *)

(** C6: on a table that has rows and both required columns,
    [read_business_info] returns the (name, code) pairs of the rows with
    duplicates dropped, and never fails; the result has no repeated pair,
    holds exactly the pairs of the table, and keeps first-seen order (a pair
    appended to the table goes to the end of the result, and only when it
    was not seen before); rows [(A,X),(A,X),(B,Y)] give [(A,X),(B,Y)]; a
    table without rows gives the empty list, for which [main] substitutes
    the single form 默认表单 / Default. *)
Theorem read_business_info_dedup :
  (forall df : DataFrame,
      df_empty df = false ->
      In COL_FORM_NAME (columns df) -> In COL_FORM_EN_NAME (columns df) ->
      read_business_info df
      = Ok (drop_duplicates business_eq_dec (select_business df))) /\
  (forall l : list business,
      NoDup (drop_duplicates business_eq_dec l) /\
      (forall b, In b (drop_duplicates business_eq_dec l) <-> In b l) /\
      (forall b, drop_duplicates business_eq_dec (l ++ [b])
                 = drop_duplicates business_eq_dec l
                     ++ (if mem business_eq_dec b l then [] else [b]))) /\
  (forall A X B Y : cell,
      (A, X) <> (B, Y) ->
      read_business_info
        (mkDF [COL_FORM_NAME; COL_FORM_EN_NAME] [[A; X]; [A; X]; [B; Y]])
      = Ok [mkBusiness A X; mkBusiness B Y]) /\
  (forall cols : list pystr,
      read_business_info (mkDF cols []) = Ok [] /\
      substitute_default [] = [default_business]) /\
  default_business = mkBusiness (Str (u "默认表单")) (Str (u "Default")).
Proof.
  split; [|split; [|split; [|split]]].
  - intros df He Hn Hen. unfold read_business_info. rewrite He.
    assert (Hm : missing_columns [COL_FORM_NAME; COL_FORM_EN_NAME] df = []).
    { apply missing_columns_nil. repeat constructor; assumption. }
    now rewrite Hm.
  - intros l. split; [apply drop_duplicates_NoDup|].
    split; intros b; [apply drop_duplicates_In | apply drop_duplicates_snoc].
  - intros A X B Y Hne. unfold read_business_info. simpl.
    change (select_business
              (mkDF [COL_FORM_NAME; COL_FORM_EN_NAME] [[A; X]; [A; X]; [B; Y]]))
      with [mkBusiness A X; mkBusiness A X; mkBusiness B Y].
    rewrite drop_duplicates_twice_then_other; [reflexivity|].
    intros E. apply Hne. now injection E as -> ->.
  - intros cols. split; [|reflexivity].
    unfold read_business_info, df_empty. simpl. now destruct cols.
  - reflexivity.
Qed.

(** A catalog with the rows (企业信息, CompanyInfo) twice and (B, Y) once. *)
Lemma read_business_info_dedup_witness :
  read_business_info
    (mkDF [COL_FORM_NAME; COL_FORM_EN_NAME]
          [[Str (u "企业信息"); Str (u "CompanyInfo")];
           [Str (u "企业信息"); Str (u "CompanyInfo")];
           [Str (u "B"); Str (u "Y")]])
  = Ok [company_form; mkBusiness (Str (u "B")) (Str (u "Y"))].
Proof.
  assert (Hne : (Str (u "企业信息"), Str (u "CompanyInfo"))
                <> (Str (u "B"), Str (u "Y"))) by discriminate.
  exact (proj1 (proj2 (proj2 read_business_info_dedup)) _ _ _ _ Hne).
Defined.

(* ================================================================== *)
(** * Computations that only append to the log *)
(* ================================================================== *)

Lemma appends_ret {A} (a : A) : appends (ret a) (Ok a) [].
Proof. intros [l t]. unfold ret. simpl. now rewrite app_nil_r. Qed.

Lemma appends_raise {A} (e : exn) : appends (@raise A e) (Raise e) [].
Proof. intros [l t]. unfold raise. simpl. now rewrite app_nil_r. Qed.

Lemma appends_lift {A} (r : result A) : appends (lift r) r [].
Proof. intros [l t]. unfold lift. simpl. now rewrite app_nil_r. Qed.

Lemma appends_log (e : event) : appends (log e) (Ok tt) [e].
Proof. intros s. reflexivity. Qed.

Lemma appends_bind_ok {A B} (m : M A) (k : A -> M B) a evs r evs' :
  appends m (Ok a) evs -> appends (k a) r evs' ->
  appends (bind m k) r (evs ++ evs').
Proof.
  intros Hm Hk s. unfold bind. rewrite Hm, Hk. simpl. now rewrite app_assoc.
Qed.

Lemma appends_bind_raise {A B} (m : M A) (k : A -> M B) e evs :
  appends m (Raise e) evs -> appends (bind m k) (Raise e) evs.
Proof. intros Hm s. unfold bind. now rewrite Hm. Qed.

Lemma appends_log_then {A} (e : event) (a : A) :
  appends (log e ;; ret a) (Ok a) [e].
Proof.
  change [e] with ([e] ++ []).
  eapply appends_bind_ok; [apply appends_log | apply appends_ret].
Qed.

Lemma logs_only_bind {A B} (m : M A) (k : A -> M B) :
  logs_only m -> (forall a, logs_only (k a)) -> logs_only (bind m k).
Proof.
  intros [[a | e] [evs Hm]] Hk.
  - destruct (Hk a) as [r [evs' Hk']]. exists r, (evs ++ evs').
    eapply appends_bind_ok; eauto.
  - exists (Raise e), evs. now apply appends_bind_raise.
Qed.

Lemma logs_only_intro {A} (m : M A) r evs : appends m r evs -> logs_only m.
Proof. intros H. exists r, evs. exact H. Qed.

Create HintDb logs discriminated.
#[local] Hint Resolve appends_ret appends_raise appends_lift appends_log
  appends_log_then : logs.
#[local] Hint Extern 1 (logs_only _) =>
  (eapply logs_only_intro; solve [auto with logs]) : logs.

(** Case analysis on the scrutinee of the first [match] or [if] of the
    goal. *)
Ltac case_scrutinee :=
  match goal with
  | |- context [match ?x with _ => _ end] => destruct x eqn:?
  end.

Section RecordBuilderFacts.

Variable json_loads : pystr -> option pyval.
Variable py_repr : pyval -> pystr.
Variable excel_file : ExcelFile.

Abbreviation row_step := (process_check_row json_loads py_repr excel_file).
Abbreviation rows_loop := (process_check_rows json_loads py_repr excel_file).
Abbreviation build := (process_business_data json_loads py_repr excel_file).

(** The outcome of one row and the events it appends do not depend on the
    state it starts from. *)
Lemma process_check_row_logs_only (name : pystr) (check_row : list cell) :
  logs_only (row_step name check_row).
Proof.
  unfold process_check_row. cbv zeta.
  repeat case_scrutinee; auto with logs.
Qed.

Lemma process_check_rows_logs_only (name : pystr) (check_rows : list (list cell))
    (dat : list pystr) :
  logs_only (rows_loop name check_rows dat).
Proof.
  revert dat. induction check_rows as [|r rs IH]; intros dat; simpl.
  - auto with logs.
  - apply logs_only_bind; [apply process_check_row_logs_only|].
    intros f. apply IH.
Qed.

Lemma process_business_data_logs_only (b : business) (cg : option GroupBy) :
  logs_only (build b cg).
Proof.
  unfold process_business_data. cbv zeta.
  apply logs_only_bind; [auto with logs|]. intros _.
  case_scrutinee.
  - apply logs_only_bind; [auto with logs|]. intros _. auto with logs.
  - apply logs_only_bind; [auto with logs|]. intros _.
    apply logs_only_bind; [apply process_check_rows_logs_only|]. intros dat.
    apply logs_only_bind; [auto with logs|]. intros _. auto with logs.
Qed.

(** A record that a row appends starts with the characters 01| of
    [part1]. *)
Lemma process_check_row_append (name : pystr) (check_row : list cell)
    (s s' : state) (full_str : pystr) :
  row_step name check_row s = (Ok (Append full_str), s') ->
  exists rest, full_str = u "01|" ++ rest.
Proof.
  unfold process_check_row, bind, log, ret, raise. cbv zeta.
  repeat case_scrutinee; intros E; try discriminate;
    injection E as <- _; eexists; reflexivity.
Qed.

(** Every record a form produces starts with 01|. *)
Lemma process_check_rows_records (name : pystr) (check_rows : list (list cell))
    (dat dat' : list pystr) (s s' : state) :
  rows_loop name check_rows dat s = (Ok dat', s') ->
  Forall (fun r => exists rest, r = u "01|" ++ rest) dat ->
  Forall (fun r => exists rest, r = u "01|" ++ rest) dat'.
Proof.
  revert dat s. induction check_rows as [|r rs IH]; intros dat s; simpl.
  - unfold ret. intros E; injection E as <- _. auto.
  - unfold bind at 1. destruct (row_step name r s) as [[f | e] s1] eqn:Hr;
      [|discriminate].
    intros E Hd. eapply IH; [exact E|].
    destruct f as [|full]; [exact Hd|].
    apply Forall_app. split; [exact Hd|]. constructor; [|constructor].
    eapply process_check_row_append; eauto.
Qed.

Lemma process_business_data_records (b : business) (cg : option GroupBy)
    (s s' : state) (dat : list pystr) (en : pystr) :
  build b cg s = (Ok (dat, en), s') ->
  Forall (fun r => exists rest, r = u "01|" ++ rest) dat /\
  en = clean_cell_value (form_en_name b).
Proof.
  unfold process_business_data. cbv zeta. unfold bind at 1. unfold log at 1.
  case_scrutinee.
  - unfold bind, log, ret. intros E; injection E as <- <- _. auto.
  - unfold bind at 1. unfold log at 1. unfold bind at 1.
    match goal with
    | |- context [process_check_rows _ _ _ ?n ?rs ?d ?st] =>
        destruct (process_check_rows json_loads py_repr excel_file n rs d st)
          as [[dat1 | e] s1] eqn:Hl
    end; [|discriminate].
    unfold bind, log, ret. intros E; injection E as <- <- _.
    split; [|reflexivity].
    eapply process_check_rows_records; eauto.
Qed.

(** Without a group for the form, the builder logs the header line and one
    warning and returns no record. *)
Lemma process_business_data_no_group (b : business) (cg : option GroupBy)
    (s : state) :
  (cg = None \/
   exists g, cg = Some g /\ in_groups (clean_cell_value (form_name b)) g = false) ->
  build b cg s
  = (Ok ([], clean_cell_value (form_en_name b)),
     mkState (logs s ++ [EvFormHeader (clean_cell_value (form_name b))
                                      (clean_cell_value (form_en_name b));
                         EvWarnNoCheckData]) (ticks s)).
Proof.
  intros Hcg. unfold process_business_data. cbv zeta.
  assert (Hc : match cg with
               | None => true
               | Some g => negb (in_groups (clean_cell_value (form_name b)) g)
               end = true).
  { destruct Hcg as [-> | [g [-> Hg]]]; [reflexivity | now rewrite Hg]. }
  rewrite Hc. unfold bind, log, ret. simpl. now rewrite <- app_assoc.
Qed.

End RecordBuilderFacts.

(* ================================================================== *)
(** * ArtifactPackager *)
(* ================================================================== *)

Lemma hex_byte_lower (b : byte) : forallb is_lower_hex (MD5.hex_byte b) = true.
Proof. destruct b; reflexivity. Qed.

Lemma hexdigest_lower (data : bytes) :
  forallb is_lower_hex (MD5.hexdigest data) = true.
Proof.
  unfold MD5.hexdigest. induction (MD5.digest data) as [|b t IH].
  - reflexivity.
  - cbn [flat_map]. now rewrite forallb_app, hex_byte_lower, IH.
Qed.

Lemma bytes_le_length (n : nat) (x : N) : length (MD5.bytes_le n x) = n.
Proof. revert x. induction n; intros x; simpl; auto. Qed.

Lemma hexdigest_length (data : bytes) : length (MD5.hexdigest data) = 32.
Proof.
  unfold MD5.hexdigest, MD5.digest.
  destruct (fold_left MD5.process_chunk _ MD5.init) as [[[a b] c] d].
  set (l := map byte_of_N _).
  assert (Hl : length l = 16).
  { unfold l. rewrite length_map, !length_app, !bytes_le_length. reflexivity. }
  clearbody l.
  do 17 (destruct l as [|? l]; try discriminate). reflexivity.
Qed.

Lemma get_bytes_md5_lower (data : bytes) :
  forallb is_lower_hex (get_bytes_md5 data) = true.
Proof. destruct data; [reflexivity | apply hexdigest_lower]. Qed.

Section MainFacts.

Variable json_loads : pystr -> option pyval.
Variable py_repr : pyval -> pystr.
Variable excel_file : ExcelFile.

Abbreviation build' := (process_business_data json_loads py_repr excel_file).

(** The loop body of [main] packs what [process_business_data] returns, at
    the time the clock shows then. *)
Lemma process_form_eq (clock : nat -> pystr) (credit_code data_date : pystr)
    (cg : option GroupBy) (b : business) (s : state) :
  process_form json_loads py_repr clock excel_file credit_code data_date cg b s =
  match build' b cg s with
  | (Ok (records, en), s1) =>
      let z := artifact_of credit_code data_date records en (clock (ticks s1)) in
      (Ok z, mkState (logs s1 ++ [EvZipDone (fst z)]) (S (ticks s1)))
  | (Raise e, s1) => (Raise e, s1)
  end.
Proof.
  unfold process_form. unfold bind at 1.
  destruct (build' b cg s) as [[[records en] | e] s1]; reflexivity.
Qed.

Lemma process_forms_packed (clock : nat -> pystr) (credit_code data_date : pystr)
    (cg : option GroupBy) (bs : list business)
    (acc l : list (pystr * zip_archive)) (s s' : state) :
  process_forms json_loads py_repr clock excel_file credit_code data_date cg bs acc s
  = (Ok l, s') ->
  Forall (packed json_loads py_repr excel_file clock credit_code data_date) acc ->
  Forall (packed json_loads py_repr excel_file clock credit_code data_date) l.
Proof.
  revert acc s. induction bs as [|b bs IH]; intros acc s; simpl.
  - unfold ret. intros E; injection E as <- _. auto.
  - unfold bind at 1. rewrite process_form_eq.
    destruct (build' b cg s) as [[[records en] | e] s1] eqn:Hb; [|discriminate].
    cbv zeta. intros E Hacc. eapply IH; [exact E|].
    apply Forall_app. split; [exact Hacc|]. constructor; [|constructor].
    exists b, cg, s, s1, records, en. auto.
Qed.

(** When the run is not aborted, the task identity was read and every
    archive is the packing of a form's records under that identity. *)
Lemma main_archives_packed (clock : nat -> pystr)
    (archives : list (pystr * zip_archive)) :
  out_archives (main json_loads py_repr clock excel_file) = Some archives ->
  exists df_task credit_code data_date,
    read_excel excel_file SHEET_TASK = Ok df_task /\
    read_task_info df_task = Ok (credit_code, data_date) /\
    Forall (packed json_loads py_repr excel_file clock credit_code data_date) archives.
Proof.
  unfold main.
  destruct (main_try json_loads py_repr clock excel_file (mkState [] 0))
    as [[l | e] s'] eqn:Hm; simpl; [|discriminate].
  intros E; injection E as ->.
  revert Hm. unfold main_try. cbv zeta.
  unfold bind at 1. unfold log at 1.
  destruct (filter _ [SHEET_TASK; SHEET_BUSINESS]); [|discriminate].
  unfold bind at 1. unfold lift at 1.
  destruct (read_excel excel_file SHEET_TASK) as [df_task | e]; [|discriminate].
  unfold bind at 1. unfold lift at 1.
  destruct (read_task_info df_task) as [p | e] eqn:Ht; [|discriminate].
  destruct p as [cc dd].
  unfold bind at 1. unfold log at 1. unfold bind at 1. unfold log at 1.
  unfold bind at 1. unfold lift at 1.
  destruct (read_excel excel_file SHEET_BUSINESS) as [df_b | e]; [|discriminate].
  unfold bind at 1. unfold lift at 1.
  destruct (read_business_info df_b) as [bl | e]; [|discriminate].
  unfold bind at 1. unfold log at 1. unfold bind at 1.
  match goal with
  | |- context [read_check_group ?f ?n ?st] =>
      destruct (read_check_group f n st) as [[cg | e] s1]
  end; [|discriminate].
  unfold bind at 1.
  match goal with
  | |- context [process_forms ?x1 ?x2 ?x3 ?x4 ?x5 ?x6 ?x7 ?x8 ?x9 ?st] =>
      destruct (process_forms x1 x2 x3 x4 x5 x6 x7 x8 x9 st)
        as [[l' | e] s2] eqn:Hp
  end; [|discriminate].
  unfold bind, log, ret. intros E; injection E as <- _.
  exists df_task, cc, dd. split; [reflexivity|]. split; [exact Ht|].
  eapply process_forms_packed; eauto.
Qed.

End MainFacts.

(* ================================================================== *)
(** * RecordBuilder *)
(* ================================================================== *)

Section RecordBuilderClaims.

Variable json_loads : pystr -> option pyval.
Variable py_repr : pyval -> pystr.
Variable excel_file : ExcelFile.

Lemma field_out_of_range (check_row : list cell) (k : nat) :
  length check_row <= k -> field check_row k = Str [].
Proof.
  intros H. unfold field.
  destruct (k <? length check_row) eqn:E; [|reflexivity].
  apply Nat.ltb_lt in E. lia.
Qed.

(** C10: a check row with fewer than 10 fields is read as if each field
    beyond its end were the empty string; its J field is therefore empty,
    and the row is skipped with the warning that the J column holds no
    JSON: no exception is raised and the loop goes on with the next row,
    [dat_strings] unchanged. *)
Theorem short_check_row_is_skipped (name : pystr) (check_row : list cell)
    (s : state) :
  length check_row < 10 ->
  (forall k, length check_row <= k ->
             field check_row k = Str [] /\
             clean_cell_value (field check_row k) = []) /\
  process_check_row json_loads py_repr excel_file name check_row s
  = (Ok Continue, mkState (logs s ++ [EvWarnNoJson]) (ticks s)) /\
  (forall rest dat,
      process_check_rows json_loads py_repr excel_file name (check_row :: rest) dat s
      = process_check_rows json_loads py_repr excel_file name rest dat
          (mkState (logs s ++ [EvWarnNoJson]) (ticks s))).
Proof.
  intros Hlen.
  assert (Hf : forall k, length check_row <= k ->
                         field check_row k = Str [] /\
                         clean_cell_value (field check_row k) = []).
  { intros k Hk. rewrite field_out_of_range by exact Hk. auto. }
  assert (Hrow : process_check_row json_loads py_repr excel_file name check_row s
                 = (Ok Continue, mkState (logs s ++ [EvWarnNoJson]) (ticks s))).
  { unfold process_check_row. cbv zeta.
    destruct (Hf 9) as [_ ->]; [lia|]. reflexivity. }
  split; [exact Hf|]. split; [exact Hrow|].
  intros rest dat. simpl. unfold bind at 1. now rewrite Hrow.
Qed.

(** C7: for a form without a check-row group (no index at all, or no group
    under the form's name) [process_business_data] returns no record and
    appends, after the header line of the form, the single warning that no
    check data matches; nothing is raised, and the loop body of [main]
    still packs an archive for the form, whose data file is empty. *)
Theorem missing_group_gives_empty_artifact (clock : nat -> pystr)
    (credit_code data_date : pystr) (b : business) (cg : option GroupBy)
    (s : state) :
  (cg = None \/
   exists g, cg = Some g /\ in_groups (clean_cell_value (form_name b)) g = false) ->
  let name := clean_cell_value (form_name b) in
  let en := clean_cell_value (form_en_name b) in
  let base := credit_code ++ u "_" ++ en ++ u "_CHK_" ++ data_date in
  process_business_data json_loads py_repr excel_file b cg s
  = (Ok ([], en),
     mkState (logs s ++ [EvFormHeader name en; EvWarnNoCheckData]) (ticks s)) /\
  filter is_warning [EvFormHeader name en; EvWarnNoCheckData]
  = [EvWarnNoCheckData] /\
  exists log_bytes s',
    process_form json_loads py_repr clock excel_file credit_code data_date cg b s
    = (Ok (base ++ u ".zip",
           [(base ++ u ".dat", []); (base ++ u ".log", log_bytes)]), s').
Proof.
  intros Hcg name en base.
  pose proof (process_business_data_no_group json_loads py_repr excel_file
                b s Hcg) as Hb.
  fold name in Hb. fold en in Hb.
  split; [exact Hb|]. split; [reflexivity|].
  rewrite process_form_eq, Hb. cbv zeta. unfold artifact_of. simpl.
  eexists. eexists. reflexivity.
Qed.

End RecordBuilderClaims.

(** The short row [["x"; NaN; "c"]] in the scenario's workbook. *)
Lemma short_check_row_is_skipped_witness :
  length [Str (u "x"); NaN; Str (u "c")] < 10 /\
  process_check_row JsonRef.loads JsonRef.repr wb_scenario (u "企业信息")
                    [Str (u "x"); NaN; Str (u "c")] (mkState [] 0)
  = (Ok Continue, mkState [EvWarnNoJson] 0).
Proof.
  assert (H : length [Str (u "x"); NaN; Str (u "c")] < 10) by (simpl; lia).
  split; [exact H|].
  exact (proj1 (proj2 (short_check_row_is_skipped JsonRef.loads JsonRef.repr
                         wb_scenario (u "企业信息")
                         [Str (u "x"); NaN; Str (u "c")] (mkState [] 0) H))).
Defined.

(** The form of the scenario when the workbook has no sheet 校验结果. *)
Lemma missing_group_gives_empty_artifact_witness :
  process_business_data JsonRef.loads JsonRef.repr wb_no_check_sheet
                        company_form None (mkState [] 0)
  = (Ok ([], u "CompanyInfo"),
     mkState [EvFormHeader (u "企业信息") (u "CompanyInfo"); EvWarnNoCheckData] 0).
Proof.
  exact (proj1 (missing_group_gives_empty_artifact JsonRef.loads JsonRef.repr
                  wb_no_check_sheet fixed_clock (u "9111010000") (u "20240105")
                  company_form (mkState [] 0) (or_introl eq_refl))).
Defined.

(* ================================================================== *)
(** * Lines of the data file *)
(* ================================================================== *)

Lemma split_no_sep (sep : N) (p : pystr) : ~ In sep p -> split sep p = [p].
Proof.
  induction p as [|c t IH]; simpl; intros H; [reflexivity|].
  destruct (N.eqb_spec c sep) as [-> | Hne]; [exfalso; apply H; auto|].
  rewrite IH by (intros Hin; apply H; auto). reflexivity.
Qed.

Lemma split_app_sep (sep : N) (p x : pystr) :
  ~ In sep p -> split sep (p ++ sep :: x) = p :: split sep x.
Proof.
  induction p as [|c t IH]; simpl; intros H.
  - now rewrite N.eqb_refl.
  - destruct (N.eqb_spec c sep) as [-> | Hne]; [exfalso; apply H; auto|].
    rewrite IH by (intros Hin; apply H; auto). reflexivity.
Qed.

(** Splitting the newline-join of records that hold no newline gives the
    records back. *)
Lemma split_join (sep : N) (records : list pystr) :
  records <> [] -> Forall (fun r => ~ In sep r) records ->
  split sep (join [sep] records) = records.
Proof.
  induction records as [|p rest IH]; intros Hne Hall; [contradiction|].
  inversion Hall as [|? ? Hp Hrest]; subst.
  destruct rest as [|q rest'].
  - simpl. now apply split_no_sep.
  - change (join [sep] (p :: q :: rest'))
      with (p ++ sep :: join [sep] (q :: rest')).
    rewrite split_app_sep by exact Hp.
    rewrite IH; [reflexivity | discriminate | exact Hrest].
Qed.

(** Every record counts: a record starts with 01|, so it is not blank. *)
Lemma count_nonblank_records (records : list pystr) :
  Forall (fun r => exists rest, r = u "01|" ++ rest) records ->
  count_nonblank records = length records.
Proof.
  unfold count_nonblank. induction 1 as [|r l [rest ->] _ IH]; [reflexivity|].
  cbn [filter].
  destruct (@strip_nonblank_head 48%N (u "1|" ++ rest) eq_refl) as [t' E].
  change (u "01|" ++ rest) with (48%N :: u "1|" ++ rest).
  rewrite E. simpl. now rewrite IH.
Qed.

Lemma nonblank_lines_join (records : list pystr) :
  Forall (fun r => ~ In NEWLINE r) records ->
  nonblank_lines (join [NEWLINE] records) = count_nonblank records.
Proof.
  intros H. unfold nonblank_lines. destruct records as [|p rest].
  - reflexivity.
  - rewrite split_join; [reflexivity | discriminate | exact H].
Qed.

(** C8, as the specification states it: in the scenario with a line break
    inside the C cell, the one record spans two non-blank lines of the data
    file, while line 5 of the log says 1. *)
Lemma line_count_counterexample :
  let record := u "01|A1" ++ [NEWLINE] ++ u "x|I1|G1|v1@&@v2" in
  let base := u "9111010000_CompanyInfo_CHK_20240105" in
  out_archives (main JsonRef.loads JsonRef.repr fixed_clock wb_multiline_cell)
  = Some [(base ++ u ".zip",
           [(base ++ u ".dat", encode_utf8 (join [NEWLINE] [record]));
            (base ++ u ".log",
             encode_utf8
               (join [NEWLINE]
                     [base ++ u ".dat"; u "abef4e0676b575dc814926c726a5645e";
                      u "21"; u "2024-01-05 10:00:00"; u "1"]))])] /\
  nonblank_lines (join [NEWLINE] [record]) = 2.
Proof. vm_compute. split; reflexivity. Qed.

(* ================================================================== *)
(** * The archives of a run *)
(* ================================================================== *)

Section ArchiveClaims.

Variable json_loads : pystr -> option pyval.
Variable py_repr : pyval -> pystr.
Variable excel_file : ExcelFile.

Lemma packed_log_layout (clock : nat -> pystr) (credit_code data_date : pystr)
    (z : pystr * zip_archive) :
  packed json_loads py_repr excel_file clock credit_code data_date z ->
  log_layout json_loads py_repr excel_file credit_code data_date z.
Proof.
  intros [b [cg [s [s1 [records [en [Hb ->]]]]]]].
  destruct (process_business_data_records _ _ _ _ _ _ Hb) as [_ ->].
  exists b, records, (clock (ticks s1)). cbv zeta.
  split; [eauto|]. split; [reflexivity|].
  fold (get_bytes_md5 (encode_utf8 (join [NEWLINE] records))).
  split; [apply get_bytes_md5_lower|].
  intros Hne. destruct (encode_utf8 (join [NEWLINE] records)) eqn:E;
    [contradiction|]. apply hexdigest_length.
Qed.

Lemma packed_line_count (clock : nat -> pystr) (credit_code data_date : pystr)
    (z : pystr * zip_archive) :
  packed json_loads py_repr excel_file clock credit_code data_date z ->
  line_count_layout json_loads py_repr excel_file z.
Proof.
  intros [b [cg [s [s1 [records [en [Hb ->]]]]]]].
  destruct (process_business_data_records _ _ _ _ _ _ Hb) as [Hrec _].
  unfold artifact_of. cbv zeta.
  do 7 eexists. exists records. split; [eauto 6|]. split; [reflexivity|].
  split; [now apply count_nonblank_records|].
  intros H. apply nonblank_lines_join. now apply Forall_forall.
Qed.

(** C4: when a run is not aborted, every form's archive has the layout
    [log_layout]: its log file is the UTF-8 encoding of five lines joined
    by newlines, namely the data-file name (base name + .dat, the base name
    being credit code + _ + English code + _CHK_ + data date), the
    lowercase hexadecimal digest of the data bytes (the empty string for
    empty data bytes), the decimal number of data bytes, a timestamp, and
    the decimal number of records whose trimmed text is not empty. *)
Theorem log_bytes_layout (clock : nat -> pystr)
    (archives : list (pystr * zip_archive)) :
  out_archives (main json_loads py_repr clock excel_file) = Some archives ->
  exists df_task credit_code data_date,
    read_excel excel_file SHEET_TASK = Ok df_task /\
    read_task_info df_task = Ok (credit_code, data_date) /\
    Forall (log_layout json_loads py_repr excel_file credit_code data_date)
           archives.
Proof.
  intros H. destruct (main_archives_packed _ _ _ _ H)
    as [df_task [cc [dd [H1 [H2 H3]]]]].
  exists df_task, cc, dd. split; [exact H1|]. split; [exact H2|].
  eapply Forall_impl; [|exact H3]. intros z. apply packed_log_layout.
Qed.

(** C8 (amended): when a run is not aborted, line 5 of every form's log is
    the number of the form's records (each record, starting with 01|, is
    non-blank); it equals the number of non-blank lines of the data file
    whenever no record holds a newline character. *)
Theorem log_line_count_spec (clock : nat -> pystr)
    (archives : list (pystr * zip_archive)) :
  out_archives (main json_loads py_repr clock excel_file) = Some archives ->
  Forall (line_count_layout json_loads py_repr excel_file) archives.
Proof.
  intros H. destruct (main_archives_packed _ _ _ _ H)
    as [df_task [cc [dd [_ [_ H3]]]]].
  eapply Forall_impl; [|exact H3]. intros z. apply packed_line_count.
Qed.

End ArchiveClaims.

(** The run of the end-to-end scenario. *)
Lemma log_bytes_layout_witness :
  exists df_task credit_code data_date,
    read_excel wb_scenario SHEET_TASK = Ok df_task /\
    read_task_info df_task = Ok (credit_code, data_date) /\
    Forall (log_layout JsonRef.loads JsonRef.repr wb_scenario credit_code data_date)
           scenario_archives.
Proof.
  apply (log_bytes_layout JsonRef.loads JsonRef.repr wb_scenario fixed_clock).
  vm_compute. reflexivity.
Defined.

(** The run of the end-to-end scenario: one record, one line. *)
Lemma log_line_count_spec_witness :
  Forall (line_count_layout JsonRef.loads JsonRef.repr wb_scenario)
         scenario_archives.
Proof.
  apply (log_line_count_spec JsonRef.loads JsonRef.repr wb_scenario fixed_clock).
  vm_compute. reflexivity.
Defined.

(* ================================================================== *)
(** * Re-running the pipeline *)
(* ================================================================== *)

Section Rerun.

Variable json_loads : pystr -> option pyval.
Variable py_repr : pyval -> pystr.
Variable excel_file : ExcelFile.
Variables clock1 clock2 : nat -> pystr.

Lemma main_try_split (clock : nat -> pystr) (s : state) :
  main_try json_loads py_repr clock excel_file s =
  match main_read excel_file s with
  | (Ok (credit_code, data_date, check_group, business_list), s1) =>
      (all_zip_bytes <-
         process_forms json_loads py_repr clock excel_file credit_code data_date
                       check_group business_list [] ;;
       log (EvAllDone (length all_zip_bytes)) ;;
       ret all_zip_bytes) s1
  | (Raise e, s1) => (Raise e, s1)
  end.
Proof.
  unfold main_try, main_read, bind, lift, log, ret, raise. cbv zeta.
  repeat case_scrutinee; try reflexivity; try congruence.
Qed.

Lemma artifact_same_but_timestamp (credit_code data_date : pystr)
    (records : list pystr) (en t1 t2 : pystr) :
  same_but_timestamp (artifact_of credit_code data_date records en t1)
                     (artifact_of credit_code data_date records en t2).
Proof. unfold same_but_timestamp, artifact_of. cbv zeta. do 10 eexists. eauto. Qed.

Lemma process_forms_rerun (credit_code data_date : pystr) (cg : option GroupBy)
    (bs : list business) :
  forall acc1 acc2 s1 s2,
    logs s1 = logs s2 -> Forall2 same_but_timestamp acc1 acc2 ->
    same_result
      (process_forms json_loads py_repr clock1 excel_file credit_code data_date
                     cg bs acc1 s1)
      (process_forms json_loads py_repr clock2 excel_file credit_code data_date
                     cg bs acc2 s2).
Proof.
  induction bs as [|b bs IH]; intros acc1 acc2 s1 s2 Hs Hacc; simpl.
  - unfold ret, same_result. simpl. auto.
  - unfold bind at 1 2. rewrite !process_form_eq.
    destruct (process_business_data_logs_only json_loads py_repr excel_file b cg)
      as [r [evs Hb]].
    rewrite (Hb s1), (Hb s2). destruct r as [[records en] | e]; cbv zeta.
    + apply IH.
      * simpl. now rewrite Hs.
      * apply Forall2_app; [exact Hacc|]. constructor; [|constructor].
        apply artifact_same_but_timestamp.
    + unfold same_result. simpl. now rewrite Hs.
Qed.

Lemma main_try_rerun (s : state) :
  same_result (main_try json_loads py_repr clock1 excel_file s)
              (main_try json_loads py_repr clock2 excel_file s).
Proof.
  rewrite !main_try_split.
  destruct (main_read excel_file s) as [[[[[cc dd] cg] bl] | e] s1].
  - pose proof (@process_forms_rerun cc dd cg bl [] [] s1 s1 eq_refl
                  (Forall2_nil _)) as H.
    unfold bind at 1 3.
    destruct (process_forms json_loads py_repr clock1 excel_file cc dd cg bl [] s1)
      as [[l1 | e1] t1];
      destruct (process_forms json_loads py_repr clock2 excel_file cc dd cg bl [] s1)
      as [[l2 | e2] t2];
      destruct H as [Hl Hr]; simpl in Hl, Hr; try contradiction.
    + unfold bind, log, ret, same_result. simpl.
      rewrite Hl, (Forall2_length Hr). auto.
    + unfold same_result. simpl. auto.
  - unfold same_result. simpl. auto.
Qed.

(** C9: two runs on the same workbook, whatever the clock shows in each,
    leave the same processing log and are both aborted or both completed;
    when completed they yield the same archives form by form: the same
    archive name, the same data file (name and bytes), and log files that
    agree in lines 1, 2, 3 and 5 (name, digest, size and record count) and
    differ at most in the timestamp line. *)
Theorem rerun_differs_only_in_timestamp :
  out_logs (main json_loads py_repr clock1 excel_file)
  = out_logs (main json_loads py_repr clock2 excel_file) /\
  match out_archives (main json_loads py_repr clock1 excel_file),
        out_archives (main json_loads py_repr clock2 excel_file) with
  | Some archives1, Some archives2 =>
      Forall2 same_but_timestamp archives1 archives2
  | None, None => True
  | _, _ => False
  end.
Proof.
  unfold main. pose proof (main_try_rerun (mkState [] 0)) as [Hl Hr].
  destruct (main_try json_loads py_repr clock1 excel_file (mkState [] 0))
    as [[l1 | e1] t1];
    destruct (main_try json_loads py_repr clock2 excel_file (mkState [] 0))
    as [[l2 | e2] t2]; simpl in *; try contradiction; auto.
  subst. now rewrite Hl.
Qed.

End Rerun.

(* ================================================================== *)
(** * Rows that the record builder does not skip *)
(* ================================================================== *)

Section UnskippedRows.

Variable json_loads : pystr -> option pyval.
Variable py_repr : pyval -> pystr.
Variable excel_file : ExcelFile.

(** A row whose J value decodes to an object with a non-empty array under
    its first key reaches the sample sheet; when reading that sheet raises,
    the warning is logged and [part1] alone is appended. *)
Lemma unreadable_sample_sheet_appends (name : pystr) (check_row : list cell)
    (s : state) (key : pystr) (first : pyval) (others : list pyval)
    (members : list (pystr * pyval)) (e : exn) :
  is_empty (clean_cell_value (field check_row 9)) = false ->
  json_loads (clean_cell_value (field check_row 9))
  = Some (PDict ((key, PList (first :: others)) :: members)) ->
  read_excel excel_file (SAMPLE_PREFIX ++ name) = Raise e ->
  process_check_row json_loads py_repr excel_file name check_row s
  = (Ok (Append (part1_of check_row)),
     mkState (logs s ++ [EvWarnReadFailed e]) (ticks s)).
Proof.
  intros Hj Hd Hr. unfold process_check_row. cbv zeta.
  rewrite Hj, Hd. cbn [truthy negb dict_keys map fst].
  unfold dict_get. cbn [find fst]. rewrite str_eqb_refl.
  cbn [option_map snd]. rewrite Hr.
  unfold bind, log, ret, part1_of. now rewrite app_nil_r.
Qed.

(** A row whose J value decodes to a true value that is not a dict raises
    [AttributeError], and the exception leaves [process_business_data]. *)
Lemma non_dict_json_raises (name : pystr) (check_row : list cell) (s : state)
    (v : pyval) :
  is_empty (clean_cell_value (field check_row 9)) = false ->
  json_loads (clean_cell_value (field check_row 9)) = Some v ->
  truthy v = true ->
  (forall d, v <> PDict d) ->
  process_check_row json_loads py_repr excel_file name check_row s
  = (Raise AttributeError, s) /\
  forall rest dat,
    process_check_rows json_loads py_repr excel_file name (check_row :: rest) dat s
    = (Raise AttributeError, s).
Proof.
  intros Hj Hd Ht Hv.
  assert (H : process_check_row json_loads py_repr excel_file name check_row s
              = (Raise AttributeError, s)).
  { unfold process_check_row. cbv zeta. rewrite Hj, Hd, Ht. cbn [negb].
    destruct v; try reflexivity. exfalso. eapply Hv. reflexivity. }
  split; [exact H|]. intros rest dat. simpl. unfold bind. now rewrite H.
Qed.

End UnskippedRows.

(** C1 at a workbook without the sheet 示例数据_企业信息: reading the sample
    sheet fails, the warning is logged, and the row is not skipped: the
    record 01|A1|I1|G1| is appended and written to the data file. *)
Theorem missing_sample_sheet_emits_record :
  process_check_row JsonRef.loads JsonRef.repr wb_no_sample_sheet (u "企业信息")
    [Str (u "企业信息"); NaN; Str (u "A1"); NaN; NaN; NaN; Str (u "G1"); NaN;
     Str (u "I1"); rows_payload] (mkState [] 0)
  = (Ok (Append (u "01|A1|I1|G1|")),
     mkState [EvWarnReadFailed
                (ValueError (MsgWorksheetNotFound (u "示例数据_企业信息")))] 0) /\
  exists log_bytes,
    out_archives (main JsonRef.loads JsonRef.repr fixed_clock wb_no_sample_sheet)
    = Some [(u "9111010000_CompanyInfo_CHK_20240105.zip",
             [(u "9111010000_CompanyInfo_CHK_20240105.dat",
               encode_utf8 (u "01|A1|I1|G1|"));
              (u "9111010000_CompanyInfo_CHK_20240105.log", log_bytes)])].
Proof. split; [vm_compute; reflexivity|]. eexists. vm_compute. reflexivity. Qed.

(** C2 at a check row whose J cell holds the JSON array [1]: the text
    decodes, to a list; [.keys()] raises [AttributeError], which
    [except json.JSONDecodeError] does not catch; the exception leaves
    [process_business_data] and aborts the job: no archive is produced. *)
Theorem json_array_aborts_job :
  process_check_row JsonRef.loads JsonRef.repr wb_json_array (u "企业信息")
    [Str (u "企业信息"); NaN; Str (u "A1"); NaN; NaN; NaN; Str (u "G1"); NaN;
     Str (u "I1"); Str (u "[1]")] (mkState [] 0)
  = (Raise AttributeError, mkState [] 0) /\
  out_archives (main JsonRef.loads JsonRef.repr fixed_clock wb_json_array) = None /\
  last (out_logs (main JsonRef.loads JsonRef.repr fixed_clock wb_json_array))
       (EvAllDone 0)
  = EvError AttributeError.
Proof. vm_compute. repeat split; reflexivity. Qed.

(* ================================================================== *)
(** * Records and sample rows *)
(* ================================================================== *)


Lemma skipn_guarded {A} (l : list A) :
  (if 3 <? length l then skipn 3 l else []) = skipn 3 l.
Proof.
  destruct (3 <? length l) eqn:E; [reflexivity|].
  apply Nat.ltb_ge in E.
  destruct l as [|a [|b [|c [|d l]]]]; simpl in *; try reflexivity; lia.
Qed.

Section SampleRows.

Variable json_loads : pystr -> option pyval.
Variable py_repr : pyval -> pystr.
Variable excel_file : ExcelFile.


End SampleRows.


(* ================================================================== *)
(** * Scenarios of the specification *)
(* ================================================================== *)

(** The end-to-end scenario: the single record 01|A1|I1|G1|v1@&@v2, the data
    file 9111010000_CompanyInfo_CHK_20240105.dat, and the log of the run. *)
Theorem end_to_end_scenario :
  process_business_data JsonRef.loads JsonRef.repr wb_scenario company_form
    (Some (mkGroupBy (check_sheet (Str (u "A1")) rows_payload) COL_CHECK_FORM))
    (mkState [] 0)
  = (Ok ([u "01|A1|I1|G1|v1@&@v2"], u "CompanyInfo"),
     mkState [EvFormHeader (u "企业信息") (u "CompanyInfo"); EvFoundRows 1;
              EvFormDone 1] 0) /\
  main JsonRef.loads JsonRef.repr fixed_clock wb_scenario
  = mkOutcome
      [EvSheets [SHEET_TASK; SHEET_BUSINESS; SHEET_CHECK; u "示例数据_企业信息"];
       EvCreditCode (u "9111010000"); EvDataDate (u "20240105");
       EvBusinessCount 1; EvCheckGrouped 1;
       EvFormHeader (u "企业信息") (u "CompanyInfo"); EvFoundRows 1;
       EvFormDone 1;
       EvZipDone (u "9111010000_CompanyInfo_CHK_20240105.zip"); EvAllDone 1]
      (Some scenario_archives).
Proof. split; vm_compute; reflexivity. Qed.

(** The scenario without a matching sample row: no record, one warning, an
    empty data file, and 0 as line 5 of the log. *)
Theorem no_match_scenario :
  let base := u "9111010000_CompanyInfo_CHK_20240105" in
  main JsonRef.loads JsonRef.repr fixed_clock wb_no_match
  = mkOutcome
      [EvSheets [SHEET_TASK; SHEET_BUSINESS; SHEET_CHECK; u "示例数据_企业信息"];
       EvCreditCode (u "9111010000"); EvDataDate (u "20240105");
       EvBusinessCount 1; EvCheckGrouped 1;
       EvFormHeader (u "企业信息") (u "CompanyInfo"); EvFoundRows 1;
       EvWarnNoMatch (u "3"); EvFormDone 0;
       EvZipDone (base ++ u ".zip"); EvAllDone 1]
      (Some [(base ++ u ".zip",
              [(base ++ u ".dat", []);
               (base ++ u ".log",
                encode_utf8
                  (join [NEWLINE]
                        [base ++ u ".dat"; []; u "0"; u "2024-01-05 10:00:00";
                         u "0"]))])]).
Proof. vm_compute. reflexivity. Qed.

(** The scenario with malformed JSON in field 9: the row is skipped with a
    warning and the form still yields its archive. *)
Theorem malformed_json_scenario :
  process_check_row JsonRef.loads JsonRef.repr wb_malformed_json (u "企业信息")
    [Str (u "企业信息"); NaN; Str (u "A1"); NaN; NaN; NaN; Str (u "G1"); NaN;
     Str (u "I1"); Str (u "{not json")] (mkState [] 0)
  = (Ok Continue, mkState [EvWarnJsonDecode] 0) /\
  exists log_bytes,
    out_archives (main JsonRef.loads JsonRef.repr fixed_clock wb_malformed_json)
    = Some [(u "9111010000_CompanyInfo_CHK_20240105.zip",
             [(u "9111010000_CompanyInfo_CHK_20240105.dat", []);
              (u "9111010000_CompanyInfo_CHK_20240105.log", log_bytes)])].
Proof. split; [vm_compute; reflexivity|]. eexists. vm_compute. reflexivity. Qed.

Lemma read_excel_ok_mem (excel_file : ExcelFile) (name : pystr) (df : DataFrame) :
  read_excel excel_file name = Ok df ->
  str_mem name (sheet_names excel_file) = true.
Proof.
  unfold read_excel.
  destruct (find (fun p => str_eqb (fst p) name) (sheets excel_file))
    as [[n d] |] eqn:Hf; [|discriminate].
  intros _. apply find_some in Hf. destruct Hf as [Hin Heq]. simpl in Heq.
  apply str_eqb_eq in Heq. subst n.
  apply str_mem_In. unfold sheet_names.
  change name with (fst (name, d)). now apply in_map.
Qed.

Section NoCheckSheet.

Variable json_loads : pystr -> option pyval.
Variable py_repr : pyval -> pystr.
Variable excel_file : ExcelFile.
Variable clock : nat -> pystr.




End NoCheckSheet.

(* ================================================================== *)
(** * Normalisation is idempotent *)
(* ================================================================== *)

Lemma lstrip_fixed (x : pystr) :
  (forall c t, x = c :: t -> isspace c = false) -> lstrip x = x.
Proof.
  destruct x as [|c t]; intros H; [reflexivity|].
  simpl. now rewrite (H c t eq_refl).
Qed.

Lemma rstrip_fixed (x : pystr) :
  (forall c t, x = t ++ [c] -> isspace c = false) -> rstrip x = x.
Proof.
  intros H. unfold rstrip. rewrite lstrip_fixed; [apply rev_involutive|].
  intros c t E. apply (H c (rev t)).
  rewrite <- (rev_involutive x), E. reflexivity.
Qed.

Lemma strip_idempotent (s : pystr) : strip (strip s) = strip s.
Proof.
  unfold strip at 1.
  rewrite lstrip_fixed by (intros c t E; eapply strip_first; eauto).
  apply rstrip_fixed. intros c t E. eapply strip_last; eauto.
Qed.

(** Cleaning a cleaned value changes nothing: the result of
    [clean_cell_value], put back into a cell, is cleaned to itself. *)
Theorem clean_cell_value_idempotent (v : cell) :
  clean_cell_value (Str (clean_cell_value v)) = clean_cell_value v.
Proof.
  rewrite clean_cell_value_str. destruct v as [|s].
  - reflexivity.
  - rewrite clean_cell_value_str. apply strip_idempotent.
Qed.

(* ================================================================== *)
(** * Digests of bytes and of files *)
(* ================================================================== *)

(** [get_bytes_md5] returns the empty string for no bytes and for nothing
    else: any other input gives 32 lowercase hexadecimal digits. *)
Theorem get_bytes_md5_empty_iff (bytes_data : bytes) :
  (get_bytes_md5 bytes_data = [] <-> bytes_data = []) /\
  (bytes_data <> [] -> length (get_bytes_md5 bytes_data) = 32) /\
  forallb is_lower_hex (get_bytes_md5 bytes_data) = true.
Proof.
  split; [|split].
  - split; [|intros ->; reflexivity].
    destruct bytes_data as [|b t]; [reflexivity|].
    intros E. pose proof (hexdigest_length (b :: t)) as H.
    simpl in E. rewrite E in H. discriminate.
  - destruct bytes_data as [|b t]; [congruence|].
    intros _. apply hexdigest_length.
  - apply get_bytes_md5_lower.
Qed.

Lemma get_bytes_md5_empty_iff_witness :
  length (get_bytes_md5 (encode_utf8 (u "01|A1|I1|G1|v1@&@v2"))) = 32.
Proof.
  apply (proj1 (proj2 (get_bytes_md5_empty_iff
                         (encode_utf8 (u "01|A1|I1|G1|v1@&@v2"))))).
  discriminate.
Defined.

Section Chunks.

Variable n : nat.
Hypothesis n_pos : 0 < n.

Lemma firstn_nil_inv (l : bytes) : firstn n l = [] -> l = [].
Proof.
  destruct n as [|k]; [lia|]. destruct l; [reflexivity | discriminate].
Qed.

(** With enough reads the loop feeds the whole rest of the file to the
    hash object, in order. *)
Lemma read_chunks_all (fuel : nat) :
  forall unread md5_hash,
    length unread < fuel ->
    read_chunks fuel n unread md5_hash = md5_hash ++ unread.
Proof.
  induction fuel as [|fuel IH]; intros unread md5_hash Hlen; [lia|].
  cbn [read_chunks].
  destruct (firstn n unread) as [|b chunk] eqn:Hc.
  - apply firstn_nil_inv in Hc. subst. now rewrite app_nil_r.
  - rewrite IH.
    + unfold md5_update. rewrite <- app_assoc, <- Hc.
      now rewrite firstn_skipn.
    + rewrite length_skipn.
      destruct unread as [|x unread']; [destruct n; discriminate|].
      cbn [length] in Hlen |- *. lia.
Qed.

End Chunks.

(** [get_file_md5] returns the empty string for a path that does not exist
    and for an empty file, and for any other file the digest
    [get_bytes_md5] gives for the content of the file: reading in chunks of
    4096 bytes hashes the whole content. *)
Theorem get_file_md5_is_digest_of_content (fs : file_system) (file_path : pystr) :
  get_file_md5 fs file_path
  = match fs file_path with
    | None => []
    | Some content => get_bytes_md5 content
    end.
Proof.
  unfold get_file_md5. destruct (fs file_path) as [content|]; [|reflexivity].
  destruct content as [|b t]; [reflexivity|].
  cbv zeta. rewrite read_chunks_all.
  - reflexivity.
  - apply Nat.ltb_lt. vm_compute. reflexivity.
  - lia.
Qed.

(* ================================================================== *)
(** * The outcome of a check row *)
(* ================================================================== *)

Lemma logs_only_run {A} (m : M A) :
  logs_only m ->
  forall s, m s = (outcome_of m, mkState (logs s ++ events_of m) (ticks s)).
Proof.
  intros [r [evs H]] s. unfold outcome_of, events_of.
  rewrite (H (mkState [] 0)), (H s). reflexivity.
Qed.

Lemma first_key_get (d : list (pystr * pyval)) (k : pystr) (ks : list pystr) :
  dict_keys d = k :: ks -> exists v, dict_get d k = Some v.
Proof.
  destruct d as [|[k' v] d']; [discriminate|].
  simpl. intros E. injection E as -> _.
  unfold dict_get. simpl. rewrite str_eqb_refl. simpl. eauto.
Qed.

Lemma truthy_dict_keys (d : list (pystr * pyval)) :
  negb (truthy (PDict d)) = false -> dict_keys d <> [].
Proof. destruct d; simpl; [discriminate | discriminate]. Qed.

Section RowOutcomes.

Variable json_loads : pystr -> option pyval.
Variable py_repr : pyval -> pystr.
Variable excel_file : ExcelFile.

Abbreviation row_run := (process_check_row json_loads py_repr excel_file).

(** A row that is skipped logs exactly one entry, a warning; a row that
    appends a record logs nothing, unless the sample sheet could not be
    read, in which case it logs that one warning. *)
Theorem check_row_logging (name : pystr) (check_row : list cell) (s : state) :
  (forall s', row_run name check_row s = (Ok Continue, s') ->
              exists ev, is_warning ev = true /\
                         s' = mkState (logs s ++ [ev]) (ticks s)) /\
  (forall full_str s',
      row_run name check_row s = (Ok (Append full_str), s') ->
      (exists df, read_excel excel_file (SAMPLE_PREFIX ++ name) = Ok df /\ s' = s)
      \/ (exists e, read_excel excel_file (SAMPLE_PREFIX ++ name) = Raise e /\
                    s' = mkState (logs s ++ [EvWarnReadFailed e]) (ticks s))).
Proof.
  split.
  - unfold process_check_row, bind, log, ret, raise. cbv zeta.
    repeat case_scrutinee; intros st E; try discriminate;
      injection E as <-; eexists; (split; [|reflexivity]); reflexivity.
  - unfold process_check_row, bind, log, ret, raise. cbv zeta.
    repeat case_scrutinee; intros full st E; try discriminate;
      injection E as _ <-; eauto.
Qed.

Lemma row_raise_inv (name : pystr) (check_row : list cell) (s : state) :
  forall e s',
    row_run name check_row s = (Raise e, s') ->
    e = AttributeError /\ s' = s /\ row_aborts json_loads check_row = true.
Proof.
  unfold process_check_row, row_aborts, bind, log, ret, raise. cbv zeta.
  repeat case_scrutinee; intros ex st E; try discriminate.
  all: try (exfalso;
            match goal with
            | H : negb (truthy (PDict ?d)) = false, K : dict_keys ?d = [] |- _ =>
                exact (truthy_dict_keys _ H K)
            end).
  all: try (exfalso;
            match goal with
            | K : dict_keys ?d = ?k :: _, G : dict_get ?d ?k = None |- _ =>
                destruct (first_key_get _ K) as [v Hv]; congruence
            end).
  all: injection E as <- <-.
  all: match goal with
       | H : negb (truthy _) = false |- _ =>
           apply negb_false_iff in H; simpl in H; simpl; rewrite ?H
       end; auto.
Qed.

Lemma row_aborts_raises (name : pystr) (check_row : list cell) (s : state) :
  row_aborts json_loads check_row = true ->
  row_run name check_row s = (Raise AttributeError, s).
Proof.
  unfold row_aborts. cbv zeta. intros H.
  apply andb_true_iff in H. destruct H as [Hj Hv].
  apply negb_true_iff in Hj.
  destruct (json_loads (clean_cell_value (field check_row 9)))
    as [v|] eqn:Hd; [|discriminate].
  apply andb_true_iff in Hv. destruct Hv as [Ht Hn].
  apply (non_dict_json_raises json_loads py_repr excel_file name _ s Hj Hd Ht).
  intros d ->. discriminate.
Qed.


(** The sufficient condition for a record: a row whose J value decodes to
    an object whose first key holds a non-empty array appends its record,
    and logs nothing, when the sample sheet of the form has at least 3
    columns and a row whose cleaned field 2 is the target key; the record is
    made from the first such row. *)
Theorem record_on_match (name : pystr) (check_row : list cell) (s : state)
    (df_sample : DataFrame) (members : list (pystr * pyval))
    (key : pystr) (keys : list pystr) (first : pyval) (others : list pyval)
    (before after : list (list cell)) (sample_row : list cell) :
  clean_cell_value (field check_row 9) <> [] ->
  json_loads (clean_cell_value (field check_row 9)) = Some (PDict members) ->
  dict_keys members = key :: keys ->
  dict_get members key = Some (PList (first :: others)) ->
  read_excel excel_file (SAMPLE_PREFIX ++ name) = Ok df_sample ->
  3 <= length (columns df_sample) ->
  rows df_sample = before ++ sample_row :: after ->
  clean_cell_value (nth 2 sample_row NaN) = strip (py_str py_repr first) ->
  Forall (fun r => clean_cell_value (nth 2 r NaN) <> strip (py_str py_repr first))
         before ->
  row_run name check_row s
  = (Ok (Append (part1_of check_row ++ part2_of (columns df_sample) sample_row)), s).
Proof.
  intros Hj Hd Hk Hg Hread Hcols Hrows Hrow Hbefore.
  assert (Hne : is_empty (clean_cell_value (field check_row 9)) = false).
  { destruct (clean_cell_value (field check_row 9)); [congruence | reflexivity]. }
  assert (Hemp : df_empty df_sample = false).
  { unfold df_empty. rewrite Hrows.
    destruct (columns df_sample); [simpl in Hcols; lia|].
    destruct before; reflexivity. }
  assert (Hlt : (length (columns df_sample) <? 3) = false)
    by (apply Nat.ltb_ge; exact Hcols).
  assert (Hf : exists rest,
             filter (fun r => str_eqb (clean_cell_value (nth 2 r NaN))
                                      (strip (py_str py_repr first)))
                    (rows df_sample) = sample_row :: rest).
  { rewrite Hrows. clear Hrows. induction Hbefore as [|r before Hr _ IH]; simpl.
    - rewrite Hrow, str_eqb_refl. eauto.
    - destruct (str_eqb (clean_cell_value (nth 2 r NaN))
                        (strip (py_str py_repr first))) eqn:E; [|exact IH].
      apply str_eqb_eq in E. contradiction. }
  destruct Hf as [rest Hf].
  assert (Ht : negb (truthy (PDict members)) = false).
  { destruct members; [discriminate | reflexivity]. }
  unfold process_check_row. cbv zeta.
  rewrite Hne, Hd, Ht, Hk, Hg, Hread, Hemp, Hlt, Hf.
  unfold ret, part1_of, part2_of. rewrite skipn_guarded. reflexivity.
Qed.

End RowOutcomes.

(** The check row and the sample sheet of the end-to-end scenario. *)
Lemma record_on_match_witness :
  process_check_row JsonRef.loads JsonRef.repr wb_scenario (u "企业信息")
    [Str (u "企业信息"); NaN; Str (u "A1"); NaN; NaN; NaN; Str (u "G1"); NaN;
     Str (u "I1"); rows_payload] (mkState [] 0)
  = (Ok (Append (u "01|A1|I1|G1|v1@&@v2")), mkState [] 0).
Proof.
  apply (@record_on_match JsonRef.loads JsonRef.repr wb_scenario (u "企业信息")
           [Str (u "企业信息"); NaN; Str (u "A1"); NaN; NaN; NaN; Str (u "G1");
            NaN; Str (u "I1"); rows_payload]
           (mkState [] 0) sample_sheet
           [(u "rows", PList [PStr (u "3")])] (u "rows") [] (PStr (u "3")) []
           [] [] [NaN; NaN; Str (u "3"); Str (u "v1"); Str (u "v2")]).
  - vm_compute. discriminate.
  - vm_compute. reflexivity.
  - reflexivity.
  - vm_compute. reflexivity.
  - vm_compute. reflexivity.
  - simpl. lia.
  - reflexivity.
  - vm_compute. reflexivity.
  - constructor.
Defined.

(* ================================================================== *)
(** * Which check rows a form processes *)
(* ================================================================== *)

(** A check row is processed for a form only when its 表单名称 cell is the
    cleaned catalog name as it stands: the catalog name is cleaned before
    the lookup, the cell of the check row is not.  So a check row whose
    表单名称 cell is missing, or is text with a blank before or after it, is
    processed for no form, whatever the catalog holds. *)
Theorem unclean_form_name_never_grouped (g : GroupBy) (check_row : list cell)
    (b : business) :
  group_key g check_row <> Str (clean_cell_value (group_key g check_row)) ->
  ~ In check_row (form_rows (Some g) b).
Proof.
  intros Hne Hin. unfold form_rows, get_group in Hin.
  apply filter_In in Hin. destruct Hin as [_ Hk].
  apply cell_eqb_eq in Hk. apply Hne. rewrite Hk.
  rewrite clean_cell_value_str.
  destruct (form_name b) as [|name]; [reflexivity|].
  now rewrite clean_cell_value_str, strip_idempotent.
Qed.

(** A check row filed under the name of the scenario's form with a blank
    before it. *)
Lemma unclean_form_name_never_grouped_witness :
  let g := mkGroupBy (mkDF [COL_CHECK_FORM; u "B"; u "C"]
                           [[Str (u " 企业信息"); NaN; Str (u "A1")]])
                     COL_CHECK_FORM in
  let check_row := [Str (u " 企业信息"); NaN; Str (u "A1")] in
  In check_row (rows (grouped_frame g)) /\
  clean_cell_value (group_key g check_row)
  = clean_cell_value (form_name company_form) /\
  ~ In check_row (form_rows (Some g) company_form).
Proof.
  cbv zeta. split; [left; reflexivity|]. split; [vm_compute; reflexivity|].
  apply unclean_form_name_never_grouped. vm_compute. discriminate.
Defined.

(* ================================================================== *)
(** * The outcome of a form *)
(* ================================================================== *)


Lemma get_group_nil (g : GroupBy) (name : pystr) :
  in_groups name g = false -> get_group g name = [].
Proof.
  unfold in_groups, get_group.
  induction (rows (grouped_frame g)) as [|r t IH]; simpl; [reflexivity|].
  destruct (cell_eqb (group_key g r) (Str name)); simpl; [discriminate|].
  exact IH.
Qed.

Section FormOutcomes.

Variable json_loads : pystr -> option pyval.
Variable py_repr : pyval -> pystr.
Variable excel_file : ExcelFile.

Abbreviation row_go := (process_check_row json_loads py_repr excel_file).
Abbreviation rows_go := (process_check_rows json_loads py_repr excel_file).
Abbreviation form_go := (process_business_data json_loads py_repr excel_file).

Lemma row_run_ok (name : pystr) (check_row : list cell) (s : state) :
  row_aborts json_loads check_row = false ->
  row_go name check_row s
  = (Ok (flow_of json_loads py_repr excel_file name check_row),
     mkState (logs s ++ row_events json_loads py_repr excel_file name check_row)
             (ticks s)).
Proof.
  intros Hno.
  pose proof (logs_only_run (process_check_row_logs_only json_loads py_repr
                               excel_file name check_row)) as Hrun.
  rewrite (Hrun s). unfold flow_of, row_events.
  destruct (outcome_of (row_go name check_row)) as [f | e] eqn:Ho; [reflexivity|].
  exfalso.
  assert (Ha : row_aborts json_loads check_row = true).
  { unfold outcome_of in Ho.
    destruct (row_go name check_row (mkState [] 0)) as [r0 s0] eqn:E.
    simpl in Ho. subst r0.
    now destruct (@row_raise_inv json_loads py_repr excel_file _ _ _ _ _ E)
      as [_ [_ H]]. }
  congruence.
Qed.

(** Rows none of which aborts: the records are those of the rows that
    append, in row order, and the log entries those of the rows, in row
    order. *)
Lemma rows_run_ok (name : pystr) (check_rows : list (list cell)) :
  forall dat s,
    existsb (row_aborts json_loads) check_rows = false ->
    rows_go name check_rows dat s
    = (Ok (dat ++ appended (map (flow_of json_loads py_repr excel_file name)
                                check_rows)),
       mkState (logs s ++ flat_map (row_events json_loads py_repr excel_file name)
                                   check_rows)
               (ticks s)).
Proof.
  induction check_rows as [|r rs IH]; intros dat [l t] Hno; simpl.
  - unfold ret. now rewrite !app_nil_r.
  - simpl in Hno. apply orb_false_iff in Hno. destruct Hno as [Hr Hrs].
    unfold bind. rewrite (row_run_ok name r _ Hr). rewrite IH by exact Hrs.
    simpl.
    destruct (flow_of json_loads py_repr excel_file name r);
      simpl; rewrite <- ?app_assoc; reflexivity.
Qed.

(** Rows one of which aborts: the loop raises at the first such row. *)
Lemma rows_run_raise (name : pystr) (check_rows : list (list cell)) :
  forall dat s,
    existsb (row_aborts json_loads) check_rows = true ->
    exists s', rows_go name check_rows dat s = (Raise AttributeError, s').
Proof.
  induction check_rows as [|r rs IH]; intros dat s Ha; simpl in *; [discriminate|].
  unfold bind.
  destruct (row_aborts json_loads r) eqn:Hr.
  - rewrite (@row_aborts_raises json_loads py_repr excel_file name r s Hr). eauto.
  - rewrite (row_run_ok name r s Hr). simpl in Ha. apply IH. exact Ha.
Qed.

Lemma form_run_ok (b : business) (cg : option GroupBy) (s : state) :
  form_aborts json_loads cg b = false ->
  form_go b cg s
  = (Ok (form_records json_loads py_repr excel_file cg b,
         clean_cell_value (form_en_name b)),
     mkState (logs s ++ form_events json_loads py_repr excel_file cg b) (ticks s)).
Proof.
  unfold form_aborts, form_events, form_records, process_business_data. cbv zeta.
  unfold has_group, form_rows.
  destruct cg as [g|].
  - destruct (in_groups (clean_cell_value (form_name b)) g) eqn:Hg; cbn [negb].
    + intros Ha.
      unfold bind at 1. unfold log at 1. unfold bind at 1. unfold log at 1.
      unfold bind at 1. rewrite rows_run_ok by exact Ha.
      unfold bind, log, ret. cbn [logs ticks app].
      rewrite <- !app_assoc. reflexivity.
    + intros _. rewrite (get_group_nil g _ Hg). cbn [existsb map appended flat_map].
      unfold bind, log, ret. cbn [logs ticks]. rewrite <- app_assoc. reflexivity.
  - intros _. cbn [existsb map appended flat_map]. unfold bind, log, ret.
    cbn [logs ticks]. rewrite <- app_assoc. reflexivity.
Qed.

Lemma form_run_raise (b : business) (cg : option GroupBy) (s : state) :
  form_aborts json_loads cg b = true ->
  exists s', form_go b cg s = (Raise AttributeError, s').
Proof.
  unfold form_aborts, process_business_data. cbv zeta. unfold form_rows.
  destruct cg as [g|]; [|discriminate].
  destruct (in_groups (clean_cell_value (form_name b)) g) eqn:Hg; cbn [negb].
  - intros Ha.
    unfold bind at 1. unfold log at 1. unfold bind at 1. unfold log at 1.
    unfold bind at 1.
    match goal with
    | |- context [process_check_rows _ _ _ ?n ?rs ?d ?st] =>
        destruct (rows_run_raise n rs d st Ha) as [s1 ->]
    end. eauto.
  - rewrite (get_group_nil g _ Hg). discriminate.
Qed.


End FormOutcomes.

(* ================================================================== *)
(** * The reading phase *)
(* ================================================================== *)

Lemma read_excel_mem_iff (excel_file : ExcelFile) (name : pystr) :
  str_mem name (sheet_names excel_file) = true <->
  exists df, read_excel excel_file name = Ok df.
Proof.
  split.
  - intros H. apply str_mem_In in H. unfold sheet_names in H.
    apply in_map_iff in H. destruct H as [[n d] [E Hin]]. simpl in E. subst n.
    unfold read_excel.
    destruct (find (fun p => str_eqb (fst p) name) (sheets excel_file))
      as [[n' d'] |] eqn:Hf; [eauto|].
    exfalso. pose proof (find_none _ _ Hf _ Hin) as Hn. simpl in Hn.
    rewrite str_eqb_refl in Hn. discriminate.
  - intros [df H]. eapply read_excel_ok_mem; eauto.
Qed.

Lemma read_excel_not_mem (excel_file : ExcelFile) (name : pystr) :
  str_mem name (sheet_names excel_file) = false ->
  read_excel excel_file name = Raise (ValueError (MsgWorksheetNotFound name)).
Proof.
  intros H. unfold read_excel.
  destruct (find (fun p => str_eqb (fst p) name) (sheets excel_file))
    as [[n d] |] eqn:Hf; [|reflexivity].
  exfalso.
  assert (Hm : str_mem name (sheet_names excel_file) = true).
  { apply read_excel_mem_iff. unfold read_excel. rewrite Hf. eauto. }
  congruence.
Qed.

Lemma read_check_group_run (excel_file : ExcelFile) :
  appends (read_check_group excel_file (sheet_names excel_file))
          (Ok (check_index excel_file)) (check_index_events excel_file).
Proof.
  intros s. unfold read_check_group, check_index, check_index_events.
  destruct (str_mem SHEET_CHECK (sheet_names excel_file)) eqn:Hm.
  - apply read_excel_mem_iff in Hm. destruct Hm as [df Hdf]. rewrite Hdf.
    unfold bind at 1. unfold lift at 1.
    destruct (str_mem COL_CHECK_FORM (columns df)); cbn [andb];
      unfold bind, log, ret; reflexivity.
  - rewrite (read_excel_not_mem _ _ Hm).
    destruct s as [l t]. unfold ret. simpl. now rewrite app_nil_r.
Qed.


Section ReadingPhase.

Variable excel_file : ExcelFile.

Lemma main_read_run :
  let names := sheet_names excel_file in
  let missing := missing_sheets excel_file in
  match missing with
  | _ :: _ =>
      appends (main_read excel_file)
              (Raise (ValueError (MsgMissingSheets missing))) [EvSheets names]
  | [] =>
      exists df_task df_business,
        read_excel excel_file SHEET_TASK = Ok df_task /\
        read_excel excel_file SHEET_BUSINESS = Ok df_business /\
        match read_task_info df_task with
        | Raise e => appends (main_read excel_file) (Raise e) [EvSheets names]
        | Ok (credit_code, data_date) =>
            match read_business_info df_business with
            | Raise e =>
                appends (main_read excel_file) (Raise e)
                        [EvSheets names; EvCreditCode credit_code;
                         EvDataDate data_date]
            | Ok business_list =>
                let forms := substitute_default business_list in
                appends (main_read excel_file)
                        (Ok (credit_code, data_date, check_index excel_file, forms))
                        ([EvSheets names; EvCreditCode credit_code;
                          EvDataDate data_date; EvBusinessCount (length forms)]
                           ++ check_index_events excel_file)
            end
        end
  end.
Proof.
  cbv zeta. unfold main_read. cbv zeta. fold (missing_sheets excel_file).
  destruct (missing_sheets excel_file) as [|m ms] eqn:Hm.
  - assert (Ht : str_mem SHEET_TASK (sheet_names excel_file) = true).
    { destruct (str_mem SHEET_TASK (sheet_names excel_file)) eqn:H; [reflexivity|].
      unfold missing_sheets in Hm. cbn [filter] in Hm. rewrite H in Hm.
      discriminate. }
    assert (Hb : str_mem SHEET_BUSINESS (sheet_names excel_file) = true).
    { destruct (str_mem SHEET_BUSINESS (sheet_names excel_file)) eqn:H;
        [reflexivity|].
      unfold missing_sheets in Hm. cbn [filter] in Hm. rewrite Ht, H in Hm.
      discriminate. }
    apply read_excel_mem_iff in Ht. destruct Ht as [df_task Ht].
    apply read_excel_mem_iff in Hb. destruct Hb as [df_b Hb].
    exists df_task, df_b. split; [exact Ht|]. split; [exact Hb|].
    rewrite Ht, Hb.
    destruct (read_task_info df_task) as [[cc dd] | e] eqn:Et.
    + destruct (read_business_info df_b) as [bl | e] eqn:Eb.
      * cbv zeta. intros s.
        unfold bind, log, lift. cbn [logs ticks].
        rewrite Et. cbv beta iota. rewrite Eb. cbn [logs ticks].
        rewrite read_check_group_run. unfold ret. cbn [logs ticks].
        rewrite <- !app_assoc. reflexivity.
      * intros s. unfold bind, log, lift. cbn [logs ticks].
        rewrite Et. cbv beta iota. rewrite Eb. cbn [logs ticks].
        rewrite <- !app_assoc. reflexivity.
    + intros s. unfold bind, log, lift. cbn [logs ticks].
      rewrite Et. reflexivity.
  - intros s. unfold bind, log, raise. reflexivity.
Qed.

Lemma main_read_logs_only : logs_only (main_read excel_file).
Proof.
  pose proof main_read_run as H. cbv zeta in H.
  destruct (missing_sheets excel_file); [|eapply logs_only_intro; exact H].
  destruct H as [dt [db [_ [_ H]]]].
  destruct (read_task_info dt) as [[c d] | e]; [|eapply logs_only_intro; exact H].
  destruct (read_business_info db); eapply logs_only_intro; exact H.
Qed.


End ReadingPhase.

(** The catalog reader raises exactly for a sheet that is not empty and
    lacks one of its two columns, and returns the empty list exactly for an
    empty sheet, whether or not that sheet has the columns; so the default
    form stands in exactly for an empty sheet. *)
Theorem read_business_info_outcomes (df : DataFrame) :
  ((exists e, read_business_info df = Raise e) <->
   df_empty df = false /\
   (~ In COL_FORM_NAME (columns df) \/ ~ In COL_FORM_EN_NAME (columns df))) /\
  (read_business_info df = Ok [] <-> df_empty df = true) /\
  (forall business_list,
      read_business_info df = Ok business_list ->
      substitute_default business_list
      = if df_empty df then [default_business] else business_list).
Proof.
  unfold read_business_info. cbv zeta.
  destruct (df_empty df) eqn:He.
  - split; [|split].
    + split; [intros [e E]; discriminate | intros [E _]; discriminate].
    + tauto.
    + intros l E. injection E as <-. reflexivity.
  - destruct (missing_columns [COL_FORM_NAME; COL_FORM_EN_NAME] df)
      as [|m ms] eqn:Hm.
    + apply missing_columns_nil in Hm.
      assert (Hn : In COL_FORM_NAME (columns df))
        by (inversion Hm; assumption).
      assert (Hen : In COL_FORM_EN_NAME (columns df)).
      { inversion Hm as [|? ? _ Hm']. inversion Hm'; assumption. }
      assert (Hrows : rows df <> []).
      { intros Hr. assert (df_empty df = true) by (apply df_empty_true; auto).
        congruence. }
      assert (Hne : drop_duplicates business_eq_dec (select_business df) <> []).
      { unfold select_business. destruct (rows df) as [|r rs]; [congruence|].
        intros E.
        assert (Hin : In (mkBusiness (row_get (columns df) r COL_FORM_NAME)
                                     (row_get (columns df) r COL_FORM_EN_NAME))
                         (drop_duplicates business_eq_dec
                            (map (fun r0 => mkBusiness
                                    (row_get (columns df) r0 COL_FORM_NAME)
                                    (row_get (columns df) r0 COL_FORM_EN_NAME))
                                 (r :: rs)))).
        { apply drop_duplicates_In. now left. }
        rewrite E in Hin. exact Hin. }
      split; [|split].
      * split; [intros [e E]; discriminate | intros [_ [H | H]]; contradiction].
      * split; [intros E; injection E as E; contradiction | discriminate].
      * intros l E. injection E as <-.
        destruct (drop_duplicates business_eq_dec (select_business df));
          [congruence | reflexivity].
    + split; [|split].
      * split; [intros _ | eauto].
        split; [reflexivity|].
        assert (Hnot : ~ Forall (fun c => In c (columns df))
                                [COL_FORM_NAME; COL_FORM_EN_NAME]).
        { intros HF. apply missing_columns_nil in HF. congruence. }
        destruct (str_mem COL_FORM_NAME (columns df)) eqn:H1;
          [|left; now apply str_mem_false].
        destruct (str_mem COL_FORM_EN_NAME (columns df)) eqn:H2;
          [|right; now apply str_mem_false].
        exfalso. apply Hnot.
        apply str_mem_In in H1. apply str_mem_In in H2.
        repeat constructor; assumption.
      * split; discriminate.
      * intros l E. discriminate.
Qed.

(* ================================================================== *)
(** * The outcome of a job *)
(* ================================================================== *)


Lemma NoDup_map_iff {A B C} (f : A -> B) (g : A -> C) (l : list A) :
  (forall a a', f a = f a' <-> g a = g a') ->
  NoDup (map f l) <-> NoDup (map g l).
Proof.
  intros H. induction l as [|a l IH]; simpl.
  - split; constructor.
  - assert (Hin : In (f a) (map f l) <-> In (g a) (map g l)).
    { rewrite !in_map_iff. split; intros [a' [E Ha']]; exists a';
        (split; [apply H; exact E | exact Ha']). }
    split; intros Hnd; inversion Hnd; subst; constructor; tauto.
Qed.

Lemma zip_name_eq_iff (credit_code data_date : pystr) (b b' : business) :
  zip_name credit_code data_date b = zip_name credit_code data_date b' <->
  clean_cell_value (form_en_name b) = clean_cell_value (form_en_name b').
Proof.
  unfold zip_name. split; [|intros ->; reflexivity].
  intros E. apply app_inv_tail in E. apply app_inv_head in E.
  apply app_inv_head in E. apply app_inv_tail in E. exact E.
Qed.

Section JobOutcomes.

Variable json_loads : pystr -> option pyval.
Variable py_repr : pyval -> pystr.
Variable excel_file : ExcelFile.
Variable clock : nat -> pystr.

Abbreviation forms_go :=
  (process_forms json_loads py_repr clock excel_file).

Lemma job_archives_names (credit_code data_date : pystr)
    (records_of : business -> list pystr) (forms : list business) :
  forall k,
    map fst (job_archives clock credit_code data_date records_of forms k)
    = map (zip_name credit_code data_date) forms.
Proof.
  induction forms as [|b bs IH]; intros k; [reflexivity|].
  cbn [job_archives map]. rewrite IH. reflexivity.
Qed.

Lemma job_archives_length (credit_code data_date : pystr)
    (records_of : business -> list pystr) (forms : list business) (k : nat) :
  length (job_archives clock credit_code data_date records_of forms k)
  = length forms.
Proof.
  rewrite <- (length_map fst), job_archives_names. apply length_map.
Qed.

Lemma process_forms_ok (credit_code data_date : pystr) (cg : option GroupBy)
    (bs : list business) :
  forall acc s,
    existsb (form_aborts json_loads cg) bs = false ->
    forms_go credit_code data_date cg bs acc s
    = (Ok (acc ++ job_archives clock credit_code data_date
                     (form_records json_loads py_repr excel_file cg) bs (ticks s)),
       mkState (logs s ++ flat_map (form_log json_loads py_repr excel_file
                                             credit_code data_date cg) bs)
               (ticks s + length bs)).
Proof.
  induction bs as [|b bs IH]; intros acc [l t] Hno.
  - cbn [process_forms job_archives flat_map length]. unfold ret.
    cbn [logs ticks]. now rewrite !app_nil_r, Nat.add_0_r.
  - cbn [existsb] in Hno. apply orb_false_iff in Hno. destruct Hno as [Hb Hbs].
    cbn [process_forms]. unfold bind at 1. rewrite process_form_eq.
    rewrite (@form_run_ok json_loads py_repr excel_file b cg _ Hb).
    cbv beta iota zeta. rewrite IH by exact Hbs.
    cbn [logs ticks job_archives flat_map length]. unfold form_log.
    rewrite <- !app_assoc, Nat.add_succ_r. reflexivity.
Qed.

Lemma process_forms_raise (credit_code data_date : pystr) (cg : option GroupBy)
    (bs : list business) :
  forall acc s,
    existsb (form_aborts json_loads cg) bs = true ->
    exists s', forms_go credit_code data_date cg bs acc s
               = (Raise AttributeError, s').
Proof.
  induction bs as [|b bs IH]; intros acc s Ha; simpl in *; [discriminate|].
  unfold bind at 1. rewrite process_form_eq.
  destruct (form_aborts json_loads cg b) eqn:Hb.
  - destruct (@form_run_raise json_loads py_repr excel_file b cg s Hb) as [s1 ->].
    eauto.
  - rewrite (@form_run_ok json_loads py_repr excel_file b cg s Hb).
    cbv beta iota zeta. now apply IH.
Qed.

Lemma main_run_ok (credit_code data_date : pystr) (cg : option GroupBy)
    (forms : list business) :
  outcome_of (main_read excel_file) = Ok (credit_code, data_date, cg, forms) ->
  existsb (form_aborts json_loads cg) forms = false ->
  main json_loads py_repr clock excel_file
  = mkOutcome
      (events_of (main_read excel_file)
         ++ flat_map (form_log json_loads py_repr excel_file
                               credit_code data_date cg) forms
         ++ [EvAllDone (length forms)])
      (Some (job_archives clock credit_code data_date
                          (form_records json_loads py_repr excel_file cg) forms 0)).
Proof.
  intros Ho Ha. unfold main. rewrite main_try_split.
  rewrite (logs_only_run (main_read_logs_only excel_file) (mkState [] 0)).
  rewrite Ho. cbn [logs ticks app].
  unfold bind at 1. rewrite process_forms_ok by exact Ha.
  unfold bind, log, ret. cbn [logs ticks app].
  rewrite job_archives_length, <- app_assoc. reflexivity.
Qed.


(** In a job that completes, the names of the archives are pairwise
    distinct exactly when the cleaned English names of the forms are: the
    catalog is freed of repeated (name, English name) pairs only, so two
    forms with different names and one English name give two archives of
    one name in the aggregate archive. *)
Theorem archive_names_distinct_iff (archives : list (pystr * zip_archive)) :
  out_archives (main json_loads py_repr clock excel_file) = Some archives ->
  exists credit_code data_date check_group forms,
    outcome_of (main_read excel_file)
    = Ok (credit_code, data_date, check_group, forms) /\
    map fst archives = map (zip_name credit_code data_date) forms /\
    (NoDup (map fst archives) <->
     NoDup (map (fun b => clean_cell_value (form_en_name b)) forms)).
Proof.
  intros Hout.
  destruct (outcome_of (main_read excel_file))
    as [[[[cc dd] cg] forms] | e] eqn:Ho.
  - exists cc, dd, cg, forms. split; [reflexivity|].
    destruct (existsb (form_aborts json_loads cg) forms) eqn:Ha.
    + exfalso. revert Hout. unfold main. rewrite main_try_split.
      rewrite (logs_only_run (main_read_logs_only excel_file) (mkState [] 0)).
      rewrite Ho.
      match goal with
      | |- context [bind _ _ ?st] =>
          destruct (process_forms_raise cc dd cg forms [] st Ha) as [s' E]
      end.
      unfold bind. rewrite E. discriminate.
    + rewrite (main_run_ok Ho Ha) in Hout.
      cbn [out_archives] in Hout. injection Hout as <-.
      rewrite job_archives_names. split; [reflexivity|].
      apply NoDup_map_iff. intros a a'. apply zip_name_eq_iff.
  - exfalso. revert Hout. unfold main. rewrite main_try_split.
    rewrite (logs_only_run (main_read_logs_only excel_file) (mkState [] 0)).
    rewrite Ho. discriminate.
Qed.


End JobOutcomes.

(** The scenario of the specification completes with one archive, whose
    name is made from the English name of its one form. *)
Lemma archive_names_distinct_iff_witness :
  exists credit_code data_date check_group forms,
    outcome_of (main_read wb_scenario)
    = Ok (credit_code, data_date, check_group, forms) /\
    map fst scenario_archives = map (zip_name credit_code data_date) forms /\
    (NoDup (map fst scenario_archives) <->
     NoDup (map (fun b => clean_cell_value (form_en_name b)) forms)).
Proof.
  apply (@archive_names_distinct_iff JsonRef.loads JsonRef.repr wb_scenario
           fixed_clock scenario_archives).
  vm_compute. reflexivity.
Defined.

